(** * Training orchestrator of ML-Energy-System: [pipeline/models/training.py]

    A shallow embedding of the three functions of the file, [train],
    [validate] and [train_loop], and of the policy they implement: loss
    averaging over the batches of a loader, checkpoint on strict improvement
    of the validation loss, patience counting with early stop, and gated
    metrics logging.

    Conventions.
    - A Python [float] is an IEEE 754 binary64 number: [spec_float] of the
      standard library with [prec = 53] and [emax = 1024]; [+], [/] and [<]
      are [SFadd], [SFdiv] and [SFltb] there.  Dividing by the integer 0
      raises [ZeroDivisionError]; building the shuffling loader over a
      training set without samples raises [ValueError].
    - Python [int]s are [Z]; the number of batches of a loader is the
      length of the list of batches a pass over it yields.
    - The numeric framework (model, optimizer, scheduler, data loaders) is
      external to the file; it is a record of operations, [Framework], over
      which every definition is parametrised.
    - Mutable objects live in a [World]; a computation maps a world to an
      [Outcome]: the value or the exception, the world left behind, and the
      external calls made, in order. *)

From Stdlib Require Import ZArith List Bool Lia Permutation Sorted.
From Stdlib Require Import Floats.SpecFloat.
Import ListNotations.

Local Open Scope Z_scope.

(* ===================================================================== *)
(** ** Python floats *)
(* ===================================================================== *)

Module PyFloat.

Definition prec : Z := 53.
Definition emax : Z := 1024.

Definition float : Type := spec_float.

Definition add : float -> float -> float := SFadd prec emax.
Definition div : float -> float -> float := SFdiv prec emax.
Definition ltb : float -> float -> bool := SFltb.
Definition eqb : float -> float -> bool := SFeqb.

(** [float(n)] for an integer [n], correctly rounded. *)
Definition of_int (n : Z) : float := binary_normalize prec emax n 0 false.

(** [float("inf")], [float("nan")] and the float the integer literal [0]
    is coerced to. *)
Definition inf : float := S754_infinity false.
Definition nan : float := S754_nan.
Definition zero : float := S754_zero false.

(** The decimal literal [p/q] where the quotient rounds to it, e.g.
    [0.6] as [ratio 6 10]. *)
Definition ratio (p q : Z) : float := div (of_int p) (of_int q).

End PyFloat.

Import PyFloat.

(* ===================================================================== *)
(** ** Exceptions and results *)
(* ===================================================================== *)

Inductive exn : Type := ZeroDivisionError | ValueError.

Inductive result (A : Type) : Type :=
| Ok (a : A)
| Raise (e : exn).

Arguments Ok {A} a.
Arguments Raise {A} e.

(** [x / n] for a float [x] and an int [n]: Python coerces [n] to a float
    and raises on a zero divisor. *)
Definition truediv (x : float) (n : Z) : result float :=
  if n =? 0 then Raise ZeroDivisionError else Ok (div x (of_int n)).

(** [range(n)] has [n] elements, none when [n] is negative. *)
Definition range_len (n : Z) : nat := Z.to_nat n.

(* ===================================================================== *)
(** ** The dataframe and its partition *)
(* ===================================================================== *)

Section Frames.

Variable Payload : Type.

(** One row: the three boolean membership columns and the other columns. *)
Record Row : Type := mkRow {
  train_col : bool;
  val_col : bool;
  test_col : bool;
  payload : Payload
}.

(** A dataframe is the list of its rows, each with its index label. *)
Definition DataFrame : Type := list (Z * Row).

Definition rows (df : DataFrame) : list Row := map snd df.
Definition index (df : DataFrame) : list Z := map fst df.

(** [df[mask]]: the rows whose mask is true, labels and order kept. *)
Definition select (mask : Row -> bool) (df : DataFrame) : DataFrame :=
  filter (fun ir => mask (snd ir)) df.

Fixpoint relabel (i : Z) (rs : list Row) : DataFrame :=
  match rs with
  | [] => []
  | r :: rs' => (i, r) :: relabel (i + 1) rs'
  end.

(** [df.reset_index(drop=True)]: labels become 0, 1, 2, ... *)
Definition reset_index (df : DataFrame) : DataFrame := relabel 0 (rows df).

(** Lines 102-107: the pair [(train_df, val_df)]. *)
Definition split_frames (merge_train_val : bool) (df : DataFrame)
  : DataFrame * DataFrame :=
  if merge_train_val then
    (reset_index (select (fun r => train_col r || val_col r) df),
     reset_index (select test_col df))
  else
    (reset_index (select train_col df),
     reset_index (select val_col df)).

End Frames.

Arguments mkRow {Payload}.
Arguments train_col {Payload}.
Arguments val_col {Payload}.
Arguments test_col {Payload}.
Arguments payload {Payload}.
Arguments rows {Payload}.
Arguments index {Payload}.
Arguments select {Payload}.
Arguments relabel {Payload}.
Arguments reset_index {Payload}.
Arguments split_frames {Payload}.

(* ===================================================================== *)
(** ** Hyperparameters and the external framework *)
(* ===================================================================== *)

(** The fields of [hyperparameters.train] that the file reads as numbers. *)
Record Hyper : Type := mkHyper {
  epochs : Z;
  batch_size : Z;
  hp_lr : float;
  min_lr : float;
  clip_grad : float
}.

(** What the file borrows from the numeric framework and from the sibling
    modules [dataset] and [transformer].  But for the [ValueError] of the
    shuffling loader on an empty training set (see [run_epochs]), the calls
    are taken to succeed: the other exceptions they may raise (shape
    mismatch, out of memory, a file that cannot be written) are not
    modelled.

    - [Params]: the model's [state_dict()]; [Grads]: the [.grad] buffers;
      [OptSt], [SchedSt]: the internal state of optimizer and scheduler;
      [Batch]: one [((past, forecast), targets)]; [Payload]: the data
      columns of a row.
    - [build_model hp]: [build_model(hyperparameters)] on the device.
    - [optimizer_init hp ps]:
      [hyperparameters.train.optimizer(model.parameters(), lr=...)].
    - [scheduler_init hp]: [Scheduler(optimizer, T_max=epochs,
      eta_min=min_lr)].
    - [no_grad]: the gradient buffers of a fresh model and after
      [optimizer.zero_grad()].
    - [model_loss training ps b]:
      [criterion(model((past, forecast)), targets).item()], a function of
      the parameters, the batch and the mode flag [model.training].
    - [loss_backward ps b g]: [loss.backward()], accumulating into [g].
    - [clip_grad_norm c g]:
      [torch.nn.utils.clip_grad_norm_(model.parameters(), c)].
    - [optimizer_step lr os ps g]: [optimizer.step()] at learning rate [lr].
    - [scheduler_step ss lr]: [scheduler.step()], giving the new scheduler
      state and the new learning rate of the optimizer.
    - [batches hp frame]: the batches of
      [DataLoader(TimeSeriesDataset(frame, hp), batch_size, shuffle=False)],
      the same at every pass.
    - [shuffled hp frame k]: the batches of the same loader with
      [shuffle=True], as yielded at pass [k] over it (0 for the first). *)
Record Framework : Type := mkFramework {
  Params : Type;
  Grads : Type;
  OptSt : Type;
  SchedSt : Type;
  Batch : Type;
  Payload : Type;
  build_model : Hyper -> Params;
  optimizer_init : Hyper -> Params -> OptSt;
  scheduler_init : Hyper -> SchedSt;
  no_grad : Grads;
  model_loss : bool -> Params -> Batch -> float;
  loss_backward : Params -> Batch -> Grads -> Grads;
  clip_grad_norm : float -> Grads -> Grads;
  optimizer_step : float -> OptSt -> Params -> Grads -> Params * OptSt;
  scheduler_step : SchedSt -> float -> SchedSt * float;
  batches : Hyper -> DataFrame Payload -> list Batch;
  shuffled : Hyper -> DataFrame Payload -> nat -> list Batch
}.

Section Run.

Variable F : Framework.

(* =================================================================== *)
(** ** World, events, computations *)
(* =================================================================== *)

(** Calls that leave the file, one constructor per call site. *)
Inductive Event : Type :=
| EvSeed (seed : Z)                       (* lines 87-94 *)
| EvMakedirs                              (* line 99 *)
| EvPickleDump (hp : Hyper)               (* line 100 *)
| EvModelTrain                            (* model.train() *)
| EvModelEval                             (* model.eval() *)
| EvZeroGrad                              (* optimizer.zero_grad() *)
| EvForward (grad_enabled : bool)         (* model(...) and criterion(...) *)
| EvBackward                              (* loss.backward() *)
| EvClipGrad (max_norm : float)           (* clip_grad_norm_ *)
| EvOptStep                               (* optimizer.step() *)
| EvPostfix (batch_loss : float)          (* progress_bar.set_postfix *)
| EvSchedStep                             (* scheduler.step() *)
| EvReadLR (lr : float)                   (* optimizer.param_groups[0]["lr"] *)
| EvPrintEpoch (epoch : Z) (train_loss val_loss lr : float)
| EvSave (state_dict : Params F)          (* torch.save(..., model_path) *)
| EvPrintStop (patience : Z)              (* line 160 *)
| EvLog (train_loss val_loss best_val_loss lr : float)  (* wandb.log *)
| EvPrintSkip.                            (* line 175 *)

Record World : Type := mkWorld {
  parameters : Params F;        (* the model's parameters and buffers *)
  training : bool;              (* model.training *)
  grads : Grads F;
  opt_state : OptSt F;
  lr : float;                   (* optimizer.param_groups[0]["lr"] *)
  sched : SchedSt F;
  model_pth : option (Params F) (* content of <save_path>/<id>/model.pth *)
}.

Record Outcome (A : Type) : Type := mkOutcome {
  res : result A;
  world : World;
  trace : list Event
}.

Arguments mkOutcome {A}.
Arguments res {A}.
Arguments world {A}.
Arguments trace {A}.

Definition M (A : Type) : Type := World -> Outcome A.

Definition ret {A} (a : A) : M A := fun w => mkOutcome (Ok a) w [].

(** Sequencing: an exception skips the rest and keeps the world as it is
    at the raise. *)
Definition bind {A B} (m : M A) (k : A -> M B) : M B :=
  fun w =>
    let o := m w in
    match res o with
    | Ok a =>
        let o' := k a (world o) in
        mkOutcome (res o') (world o') (trace o ++ trace o')
    | Raise e => mkOutcome (Raise e) (world o) (trace o)
    end.

Definition lift {A} (r : result A) : M A := fun w => mkOutcome r w [].
Definition emit (ev : Event) : M unit := fun w => mkOutcome (Ok tt) w [ev].
Definition get : M World := fun w => mkOutcome (Ok w) w [].
Definition put (w : World) : M unit := fun _ => mkOutcome (Ok tt) w [].

Notation "x <- c1 ;; c2" := (bind c1 (fun x => c2))
  (at level 61, c1 at next level, right associativity).
Notation "c1 ;; c2" := (bind c1 (fun _ => c2))
  (at level 61, right associativity).

(* =================================================================== *)
(** ** The framework calls as computations *)
(* =================================================================== *)

Definition set_training (b : bool) (w : World) : World :=
  mkWorld (parameters w) b (grads w) (opt_state w) (lr w) (sched w)
          (model_pth w).

Definition model_train : M unit :=
  w <- get ;; put (set_training true w) ;; emit EvModelTrain.

Definition model_eval : M unit :=
  w <- get ;; put (set_training false w) ;; emit EvModelEval.

Definition zero_grad : M unit :=
  w <- get ;;
  put (mkWorld (parameters w) (training w) (no_grad F) (opt_state w) (lr w)
               (sched w) (model_pth w)) ;;
  emit EvZeroGrad.

(** Forward pass and criterion; [grad_enabled] is false under
    [torch.no_grad()]. *)
Definition forward_loss (grad_enabled : bool) (b : Batch F) : M float :=
  w <- get ;;
  emit (EvForward grad_enabled) ;;
  ret (model_loss F (training w) (parameters w) b).

Definition backward (b : Batch F) : M unit :=
  w <- get ;;
  put (mkWorld (parameters w) (training w)
               (loss_backward F (parameters w) b (grads w))
               (opt_state w) (lr w) (sched w) (model_pth w)) ;;
  emit EvBackward.

Definition clip (max_norm : float) : M unit :=
  w <- get ;;
  put (mkWorld (parameters w) (training w)
               (clip_grad_norm F max_norm (grads w))
               (opt_state w) (lr w) (sched w) (model_pth w)) ;;
  emit (EvClipGrad max_norm).

Definition opt_step : M unit :=
  w <- get ;;
  let ps := optimizer_step F (lr w) (opt_state w) (parameters w) (grads w) in
  put (mkWorld (fst ps) (training w) (grads w) (snd ps) (lr w) (sched w)
               (model_pth w)) ;;
  emit EvOptStep.

(** The world once the scheduler has advanced: it writes the new learning
    rate into the optimizer. *)
Definition scheduled (w : World) : World :=
  let sl := scheduler_step F (sched w) (lr w) in
  mkWorld (parameters w) (training w) (grads w) (opt_state w) (snd sl)
          (fst sl) (model_pth w).

Definition sched_step : M unit :=
  w <- get ;; put (scheduled w) ;; emit EvSchedStep.

Definition read_lr : M float :=
  w <- get ;; emit (EvReadLR (lr w)) ;; ret (lr w).

(** [torch.save(model.state_dict(), model_path)] overwrites the file. *)
Definition saved (w : World) : World :=
  mkWorld (parameters w) (training w) (grads w) (opt_state w) (lr w)
          (sched w) (Some (parameters w)).

Definition save_checkpoint : M unit :=
  w <- get ;; put (saved w) ;; emit (EvSave (parameters w)).

(* =================================================================== *)
(** ** [train] (lines 19-41) *)
(* =================================================================== *)

(** The body of the [for] of [train], lines 23-38, on the running
    [total_loss]. *)
Definition train_batch (hp : Hyper) (total_loss : float) (b : Batch F)
  : M float :=
  zero_grad ;;
  loss <- forward_loss true b ;;
  backward b ;;
  clip (clip_grad hp) ;;
  opt_step ;;
  emit (EvPostfix loss) ;;
  ret (add total_loss loss).

Fixpoint train_batches (hp : Hyper) (bs : list (Batch F)) (total_loss : float)
  : M float :=
  match bs with
  | [] => ret total_loss
  | b :: bs' =>
      total_loss' <- train_batch hp total_loss b ;;
      train_batches hp bs' total_loss'
  end.

(** [len(train_loader)] is the number of batches one pass yields. *)
Definition train (hp : Hyper) (train_loader : list (Batch F)) : M float :=
  model_train ;;
  total_loss <- train_batches hp train_loader zero ;;
  sched_step ;;
  lift (truediv total_loss (Z.of_nat (length train_loader))).

(* =================================================================== *)
(** ** [validate] (lines 45-61) *)
(* =================================================================== *)

Definition validate_batch (total_loss : float) (b : Batch F) : M float :=
  loss <- forward_loss false b ;;
  emit (EvPostfix loss) ;;
  ret (add total_loss loss).

Fixpoint validate_batches (bs : list (Batch F)) (total_loss : float)
  : M float :=
  match bs with
  | [] => ret total_loss
  | b :: bs' =>
      total_loss' <- validate_batch total_loss b ;;
      validate_batches bs' total_loss'
  end.

Definition validate (val_loader : list (Batch F)) : M float :=
  model_eval ;;
  total_loss <- validate_batches val_loader zero ;;
  lift (truediv total_loss (Z.of_nat (length val_loader))).

(* =================================================================== *)
(** ** [train_loop] (lines 64-176) *)
(* =================================================================== *)

(** The two variables the loop carries from epoch to epoch. *)
Record LoopState : Type := mkLoop {
  best_val_loss : float;
  patience_counter : Z
}.

(** How an iteration ends: falling through to the next one, or [break]. *)
Inductive Flow : Type := Continue | Break.

Section Loop.

Variable hp : Hyper.
Variable train_loader : nat -> list (Batch F).  (* batches of each pass *)
Variable val_loader : list (Batch F).
Variable log_wandb : bool.
Variable patience : Z.

(** Lines 152-157. *)
Definition update_best (val_loss : float) (st : LoopState) : M LoopState :=
  if ltb val_loss (best_val_loss st) then
    save_checkpoint ;;
    ret (mkLoop val_loss 0)
  else
    ret (mkLoop (best_val_loss st) (patience_counter st + 1)).

(** Lines 138-175, the body of the epoch loop. *)
Definition epoch_body (epoch : nat) (st : LoopState) : M (LoopState * Flow) :=
  train_loss <- train hp (train_loader epoch) ;;
  val_loss <- validate val_loader ;;
  lr <- read_lr ;;
  emit (EvPrintEpoch (Z.of_nat epoch + 1) train_loss val_loss lr) ;;
  st' <- update_best val_loss st ;;
  if patience <=? patience_counter st' then
    emit (EvPrintStop patience) ;;
    ret (st', Break)
  else
    (if log_wandb then
       emit (EvLog train_loss val_loss (best_val_loss st') lr)
     else
       emit EvPrintSkip) ;;
    ret (st', Continue).

(** [for epoch in range(...)], with [n] iterations left and [epoch] the
    next value of the loop variable.  The flow returned tells whether the
    loop was left by [break]. *)
Fixpoint epochs_loop (n : nat) (epoch : nat) (st : LoopState)
  : M (LoopState * Flow) :=
  match n with
  | O => ret (st, Continue)
  | S n' =>
      sf <- epoch_body epoch st ;;
      match snd sf with
      | Break => ret sf
      | Continue => epochs_loop n' (S epoch) (fst sf)
      end
  end.

End Loop.

(** Lines 135-136. *)
Definition init_state : LoopState := mkLoop inf 0.

(** The world after lines 119-131; [disk0] is what [model.pth] held before
    the run, if the file existed.  A run that raises at line 112 never
    builds the model: of the world it is given, only the file matters. *)
Definition init_world (hp : Hyper) (disk0 : option (Params F)) : World :=
  let model := build_model F hp in
  mkWorld model true (no_grad F) (optimizer_init F hp model) (hp_lr hp)
          (scheduler_init F hp) disk0.

(** The run up to the end of the epoch loop.

    Line 112 builds the training loader with [shuffle=True]; its sampler
    refuses a dataset without samples with a [ValueError], raised before the
    model is built.  A dataset has no sample exactly when a pass over its
    loader yields no batch, which is read here off the first pass. *)
Definition run_epochs (hp : Hyper) (df : DataFrame (Payload F))
    (merge_train_val log_wandb : bool) (patience : Z)
  : M (LoopState * Flow) :=
  emit (EvSeed 42) ;;
  emit EvMakedirs ;;
  emit (EvPickleDump hp) ;;
  let frames := split_frames merge_train_val df in
  let train_loader := shuffled F hp (fst frames) in
  let val_loader := batches F hp (snd frames) in
  match train_loader 0%nat with
  | [] => lift (Raise ValueError)
  | _ :: _ =>
      epochs_loop hp train_loader val_loader log_wandb patience
                  (range_len (epochs hp)) 0%nat init_state
  end.

Definition train_loop (hp : Hyper) (df : DataFrame (Payload F))
    (merge_train_val log_wandb : bool) (patience : Z)
    (disk0 : option (Params F)) : Outcome float :=
  (sf <- run_epochs hp df merge_train_val log_wandb patience ;;
   ret (best_val_loss (fst sf)))
  (init_world hp disk0).

(* =================================================================== *)
(** ** Reading a trace *)
(* =================================================================== *)

Definition is_save (ev : Event) : bool :=
  match ev with EvSave _ => true | _ => false end.

Definition is_log (ev : Event) : bool :=
  match ev with EvLog _ _ _ _ => true | _ => false end.

Definition is_print_epoch (ev : Event) : bool :=
  match ev with EvPrintEpoch _ _ _ _ => true | _ => false end.

Definition is_sched_step (ev : Event) : bool :=
  match ev with EvSchedStep => true | _ => false end.


Definition is_opt_step (ev : Event) : bool :=
  match ev with EvOptStep => true | _ => false end.

Definition is_forward (grad_enabled : bool) (ev : Event) : bool :=
  match ev with EvForward g => Bool.eqb g grad_enabled | _ => false end.

(** The calls of one iteration of the batch loop of [train]. *)
Definition is_train_batch_event (ev : Event) : bool :=
  match ev with
  | EvZeroGrad | EvForward true | EvBackward | EvClipGrad _ | EvOptStep
  | EvPostfix _ => true
  | _ => false
  end.

(** The calls [validate] makes: none of them writes to the model or to the
    optimizer. *)
Definition is_validate_event (ev : Event) : bool :=
  match ev with
  | EvModelEval | EvForward false | EvPostfix _ => true
  | _ => false
  end.

(** The calls [train] and [validate] make. *)
Definition is_pass_event (ev : Event) : bool :=
  match ev with
  | EvModelTrain | EvModelEval | EvZeroGrad | EvForward _ | EvBackward
  | EvClipGrad _ | EvOptStep | EvPostfix _ | EvSchedStep => true
  | _ => false
  end.


(** Neither a [wandb.log] call nor the notice printed in its place. *)
Definition not_logging (ev : Event) : bool :=
  match ev with
  | EvLog _ _ _ _ | EvPrintSkip => false
  | _ => true
  end.

Definition count (p : Event -> bool) (t : list Event) : nat :=
  length (filter p t).

(** The per-batch losses shown on the progress bar, in order. *)
Definition batch_losses (t : list Event) : list float :=
  flat_map (fun ev => match ev with EvPostfix l => [l] | _ => [] end) t.

(** The validation losses of the epochs printed, in order. *)
Definition val_losses (t : list Event) : list float :=
  flat_map (fun ev => match ev with EvPrintEpoch _ _ v _ => [v] | _ => [] end) t.

(** For each epoch printed, in order, whether a checkpoint was saved right
    after its print. *)
Fixpoint saves_by_epoch (t : list Event) : list bool :=
  match t with
  | [] => []
  | EvPrintEpoch _ _ _ _ :: t' =>
      match t' with
      | EvSave _ :: _ => true :: saves_by_epoch t'
      | _ => false :: saves_by_epoch t'
      end
  | _ :: t' => saves_by_epoch t'
  end.



End Run.


Arguments mkOutcome {F A}.
Arguments res {F A}.
Arguments world {F A}.
Arguments trace {F A}.
Arguments ret {F A}.
Arguments bind {F A B}.
Arguments lift {F A}.
Arguments EvSeed {F}.
Arguments EvMakedirs {F}.
Arguments EvPickleDump {F}.
Arguments EvModelTrain {F}.
Arguments EvModelEval {F}.
Arguments EvZeroGrad {F}.
Arguments EvForward {F}.
Arguments EvBackward {F}.
Arguments EvClipGrad {F}.
Arguments EvOptStep {F}.
Arguments EvPostfix {F}.
Arguments EvSchedStep {F}.
Arguments EvReadLR {F}.
Arguments EvPrintEpoch {F}.
Arguments EvSave {F}.
Arguments EvPrintStop {F}.
Arguments EvLog {F}.
Arguments EvPrintSkip {F}.
Arguments mkWorld {F}.
Arguments parameters {F}.
Arguments training {F}.
Arguments grads {F}.
Arguments opt_state {F}.
Arguments lr {F}.
Arguments sched {F}.
Arguments model_pth {F}.
Arguments set_training {F}.
Arguments scheduled {F}.
Arguments saved {F}.

(* ===================================================================== *)
(** ** A small concrete framework, for running the definitions *)
(* ===================================================================== *)

Module Sim.

(** The model state counts the optimizer updates made so far.  A batch is a
    float.  In training mode the loss of a batch is the batch itself; in
    evaluation mode it is read off a schedule [vals], entry [k] after [k + 1]
    updates.  The scheduler halves the learning rate at each step.  The data
    loaders make one batch per row, in frame order. *)
Definition framework (vals : list float) : Framework :=
  {| Params := nat;
     Grads := unit;
     OptSt := unit;
     SchedSt := nat;
     Batch := float;
     Payload := float;
     build_model := fun _ => 0%nat;
     optimizer_init := fun _ _ => tt;
     scheduler_init := fun _ => 0%nat;
     no_grad := tt;
     model_loss := fun training p b =>
       if training then b else nth (Nat.pred p) vals inf;
     loss_backward := fun _ _ g => g;
     clip_grad_norm := fun _ g => g;
     optimizer_step := fun _ o p _ => (S p, o);
     scheduler_step := fun s lr => (S s, div lr (of_int 2));
     batches := fun _ df => map payload (rows df);
     shuffled := fun _ df _ => map payload (rows df) |}.

Definition hyper (n : Z) : Hyper :=
  {| epochs := n; batch_size := 1; hp_lr := of_int 1; min_lr := zero;
     clip_grad := of_int 1 |}.

(** One training row and one validation row. *)
Definition frame : DataFrame float :=
  [ (0, mkRow true false false (of_int 1));
    (1, mkRow false true false zero) ].

(** No training row. *)
Definition frame_without_train : DataFrame float :=
  [ (0, mkRow false true false zero) ].

Definition start (vals : list float) : World (framework vals) :=
  init_world (framework vals) (hyper 1) None.

(** The spec's scenario: epochs=5, patience=2, validation losses
    0.5, 0.6, 0.7. *)
Definition scenario_vals : list float := [ratio 5 10; ratio 6 10; ratio 7 10].

Definition scenario : Outcome (framework scenario_vals) float :=
  train_loop (framework scenario_vals) (hyper 5) frame false true 2 None.

Definition scenario_epochs
  : Outcome (framework scenario_vals) (LoopState * Flow) :=
  run_epochs (framework scenario_vals) (hyper 5) frame false true 2
             (init_world (framework scenario_vals) (hyper 5) None).

(** The spec's other scenario: epochs=3, patience=10, validation losses
    0.5, 0.4, 0.6. *)
Definition improving_vals : list float := [ratio 5 10; ratio 4 10; ratio 6 10].

Definition improving : Outcome (framework improving_vals) float :=
  train_loop (framework improving_vals) (hyper 3) frame false true 10 None.

(** A run of one epoch whose validation loss is NaN. *)
Definition nan_run : Outcome (framework [nan]) float :=
  train_loop (framework [nan]) (hyper 1) frame false true 10 None.

(** A run of one epoch, the whole budget, with validation loss 0.5 and
    logging on; and its only epoch. *)
Definition one_epoch_run : Outcome (framework [ratio 5 10]) (LoopState * Flow) :=
  run_epochs (framework [ratio 5 10]) (hyper 1) frame false true 10
             (start [ratio 5 10]).

(** The loaders that [frame] gives: one training batch of loss 1 at every
    pass, one validation batch. *)
Definition ones : nat -> list float := fun _ => [of_int 1].
Definition zeros : list float := [zero].


(** Three batches with losses 2^53, 1 and 1, in two orders, and the
    training pass over each.  (The three values are also single-precision
    numbers, as the losses of a float32 model are.) *)
Definition heavy_first : list float := [of_int (2 ^ 53); of_int 1; of_int 1].
Definition heavy_last : list float := [of_int 1; of_int 1; of_int (2 ^ 53)].

Definition pass_heavy_first : Outcome (framework []) float :=
  train (framework []) (hyper 1) heavy_first (start []).
Definition pass_heavy_last : Outcome (framework []) float :=
  train (framework []) (hyper 1) heavy_last (start []).

End Sim.

(* ===================================================================== *)
(** ** The claims that the code does not meet, as stated *)
(* ===================================================================== *)



(** A run returns the minimum of the validation losses it observed: the
    value is one of them and none of them is below it. *)
Definition returns_observed_minimum {F : Framework} (o : Outcome F float)
  : Prop :=
  forall r, res o = Ok r -> val_losses F (trace o) <> [] ->
    In r (val_losses F (trace o))
    /\ forall v, In v (val_losses F (trace o)) -> ltb v r = false.

(** A run that exhausts its budget of [n] epochs logs at most [n - 1] of
    them: its last epoch is not logged. *)
Definition last_epoch_not_logged {F : Framework}
    (n : nat) (o : Outcome F (LoopState * Flow)) : Prop :=
  forall st, res o = Ok (st, Continue) ->
    (count F (is_log F) (trace o) < n)%nat.

(** The mean [train] returns is the same for two orders of the batches
    with the same losses. *)
Definition mean_order_invariant {F : Framework} (o1 o2 : Outcome F float)
  : Prop :=
  Permutation (batch_losses F (trace o1)) (batch_losses F (trace o2)) ->
  res o1 = res o2.

(* ===================================================================== *)
(** ** Closed forms and further readings of a trace *)
(* ===================================================================== *)

Section Vocabulary.

Variable F : Framework.

(** Lines 29-36 on the pair of the parameters and the optimizer state: the
    gradient of the one batch, from zeroed buffers, clipped to [c], then
    one update at learning rate [lr]. *)
Definition clipped_step (lr c : float) (po : Params F * OptSt F)
    (b : Batch F) : Params F * OptSt F :=
  optimizer_step F lr (snd po) (fst po)
    (clip_grad_norm F c (loss_backward F (fst po) b (no_grad F))).

(** The losses of a training pass: each batch at the parameters the
    batches before it have left, in training mode. *)
Fixpoint pass_losses (lr c : float) (po : Params F * OptSt F)
    (bs : list (Batch F)) : list float :=
  match bs with
  | [] => []
  | b :: bs' =>
      model_loss F true (fst po) b
      :: pass_losses lr c (clipped_step lr c po b) bs'
  end.

(** The scheduler state and the learning rate after [k] steps of the
    scheduler. *)
Fixpoint sched_iter (k : nat) (sl : SchedSt F * float) : SchedSt F * float :=
  match k with
  | O => sl
  | S k' => sched_iter k' (scheduler_step F (fst sl) (snd sl))
  end.

(** The parameters and the optimizer state after [k] training passes, the
    pass of epoch [epoch], then of its successors, each at the learning
    rate the scheduler has reached when the pass starts. *)
Fixpoint passes_fold (loader : nat -> list (Batch F)) (c : float)
    (k epoch : nat) (po : Params F * OptSt F) (sl : SchedSt F * float)
  : Params F * OptSt F :=
  match k with
  | O => po
  | S k' =>
      passes_fold loader c k' (S epoch)
        (fold_left (clipped_step (snd sl) c) (loader epoch) po)
        (scheduler_step F (fst sl) (snd sl))
  end.

(** The epoch number and the learning rate of each epoch line printed. *)
Definition printed_epochs (t : list (Event F)) : list (Z * float) :=
  flat_map (fun ev => match ev with
                      | EvPrintEpoch e _ _ l => [(e, l)]
                      | _ => []
                      end) t.

(** The [val_loss] and the [best_val_loss] of each record logged. *)
Definition logged (t : list (Event F)) : list (float * float) :=
  flat_map (fun ev => match ev with
                      | EvLog _ v b _ => [(v, b)]
                      | _ => []
                      end) t.

Definition is_print_stop (ev : Event F) : bool :=
  match ev with EvPrintStop _ => true | _ => false end.

End Vocabulary.

(** [x] is [y] or is strictly below it. *)
Definition not_above (x y : float) : Prop := x = y \/ ltb x y = true.

Module Cases.

(** A frame with a training row and no validation row. *)
Definition frame_without_val : DataFrame float :=
  [ (0, mkRow true false false (of_int 1)) ].

(** A frame whose rows carry one flag each. *)
Definition exclusive_frame : DataFrame float :=
  [ (0, mkRow true false false (of_int 1));
    (1, mkRow false true false (of_int 2));
    (2, mkRow false false true (of_int 3)) ].

End Cases.

(* ===================================================================== *)
(** * Properties *)
(* ===================================================================== *)

Arguments PyFloat.add : simpl never.
Arguments PyFloat.div : simpl never.
Arguments PyFloat.ltb : simpl never.
Arguments PyFloat.eqb : simpl never.
Arguments PyFloat.of_int : simpl never.
Arguments truediv : simpl never.

(* ===================================================================== *)
(** ** The order of floats *)
(* ===================================================================== *)

Ltac cmp_cases :=
  repeat match goal with
  | |- context [Pos.compare_cont Eq ?a ?b] =>
      change (Pos.compare_cont Eq a b) with (Pos.compare a b)
  | |- context [Z.compare ?a ?b] => destruct (Z.compare_spec a b); subst
  | |- context [Pos.compare ?a ?b] => destruct (Pos.compare_spec a b); subst
  end.

Lemma ltb_irrefl (x : float) : ltb x x = false.
Proof.
  unfold ltb, SFltb.
  destruct x as [s | s | | s m e]; simpl; try reflexivity;
    destruct s; cmp_cases; try reflexivity; lia.
Qed.

Lemma ltb_trans (x y z : float) :
  ltb x y = true -> ltb y z = true -> ltb x z = true.
Proof.
  unfold ltb, SFltb.
  destruct x as [sx | sx | | sx mx ex], y as [sy | sy | | sy my ey],
           z as [sz | sz | | sz mz ez]; simpl;
    try discriminate; try reflexivity;
    try (destruct sx, sy, sz; simpl; try discriminate; reflexivity);
    try (destruct sx, sy; simpl; try discriminate; reflexivity);
    try (destruct sx, sz; simpl; try discriminate; reflexivity);
    try (destruct sy, sz; simpl; try discriminate; reflexivity).
  all: destruct sx, sy, sz; simpl; try discriminate; try reflexivity;
    cmp_cases; simpl; try discriminate; try reflexivity; lia.
Qed.


Lemma truediv_pos (x : float) (n : nat) :
  truediv x (Z.of_nat (S n)) = Ok (div x (of_int (Z.of_nat (S n)))).
Proof.
  unfold truediv.
  destruct (Z.eqb_spec (Z.of_nat (S n)) 0) as [E | _]; [lia | reflexivity].
Qed.

(* ===================================================================== *)
(** ** Counting and ordering events *)
(* ===================================================================== *)

Section Traces.

Variable F : Framework.

Lemma count_app (p : Event F -> bool) (t1 t2 : list (Event F)) :
  count F p (t1 ++ t2) = (count F p t1 + count F p t2)%nat.
Proof. unfold count. rewrite filter_app, length_app. reflexivity. Qed.

(** No event of a trace whose events all belong to class [c] satisfies a
    predicate [p] disjoint from [c]. *)
Lemma class_excludes (c p : Event F -> bool) (t : list (Event F)) :
  (forall ev, c ev = true -> p ev = false) ->
  forallb c t = true -> existsb p t = false /\ count F p t = 0%nat.
Proof.
  intros D. induction t as [ | ev t IH]; simpl; intros H.
  - split; reflexivity.
  - apply andb_prop in H. destruct H as [Hev Ht].
    destruct (IH Ht) as [IH1 IH2]. unfold count in *. simpl.
    rewrite (D ev Hev), IH1. split; [reflexivity | exact IH2].
Qed.



Lemma val_losses_app (t1 t2 : list (Event F)) :
  val_losses F (t1 ++ t2) = val_losses F t1 ++ val_losses F t2.
Proof. unfold val_losses. apply flat_map_app. Qed.

Lemma batch_losses_app (t1 t2 : list (Event F)) :
  batch_losses F (t1 ++ t2) = batch_losses F t1 ++ batch_losses F t2.
Proof. unfold batch_losses. apply flat_map_app. Qed.

(** Events that are not the epoch's print carry no validation loss. *)
Lemma val_losses_none (t : list (Event F)) :
  existsb (is_print_epoch F) t = false -> val_losses F t = [].
Proof.
  induction t as [ | ev t IH]; simpl; intros H.
  - reflexivity.
  - apply orb_false_elim in H. destruct H as [H1 H2].
    rewrite (IH H2). destruct ev; try reflexivity; discriminate.
Qed.

End Traces.

(* ===================================================================== *)
(** ** One pass of [validate] and of [train] *)
(* ===================================================================== *)

Section Passes.

Variable F : Framework.

Lemma validate_batches_spec (bs : list (Batch F)) :
  forall (total : float) (w : World F),
    validate_batches F bs total w =
    mkOutcome
      (Ok (fold_left add (map (model_loss F (training w) (parameters w)) bs)
                     total))
      w
      (flat_map
         (fun b => [EvForward false;
                    EvPostfix (model_loss F (training w) (parameters w) b)])
         bs).
Proof.
  induction bs as [ | b bs IH]; intros total w.
  - reflexivity.
  - cbn. rewrite IH. reflexivity.
Qed.

(** [validate] in closed form: the losses are all taken at the parameters
    the pass starts with, and the only write is the mode flag. *)
Lemma validate_spec (val_loader : list (Batch F)) (w : World F) :
  validate F val_loader w =
  mkOutcome
    (truediv
       (fold_left add (map (model_loss F false (parameters w)) val_loader) zero)
       (Z.of_nat (length val_loader)))
    (set_training false w)
    (EvModelEval ::
     flat_map
       (fun b => [EvForward false;
                  EvPostfix (model_loss F false (parameters w) b)])
       val_loader).
Proof.
  unfold validate, bind. cbn. rewrite validate_batches_spec. cbn.
  rewrite app_nil_r. reflexivity.
Qed.

(** The result of [validate] depends on the world through the parameters
    only. *)
Lemma validate_res_parameters (val_loader : list (Batch F)) (w w' : World F) :
  parameters w' = parameters w ->
  res (validate F val_loader w') = res (validate F val_loader w).
Proof. intros E. rewrite !validate_spec. cbn. rewrite E. reflexivity. Qed.

Lemma validate_trace_class (val_loader : list (Batch F)) (w : World F) :
  forallb (is_validate_event F) (trace (validate F val_loader w)) = true.
Proof.
  rewrite validate_spec. cbn.
  induction val_loader as [ | b bs IH]; [reflexivity | exact IH].
Qed.

Lemma validate_trace_forwards (val_loader : list (Batch F)) (w : World F) :
  count F (is_forward F false) (trace (validate F val_loader w))
  = length val_loader.
Proof.
  rewrite validate_spec. unfold count. cbn.
  induction val_loader as [ | b bs IH]; [reflexivity | cbn; now rewrite IH].
Qed.

(** The batch loop of [train] never raises, and what it returns is the sum,
    from left to right, of the losses it showed on the progress bar. *)
Lemma train_batches_res (hp : Hyper) (bs : list (Batch F)) :
  forall (total : float) (w : World F),
    res (train_batches F hp bs total w) =
    Ok (fold_left add
          (batch_losses F (trace (train_batches F hp bs total w))) total).
Proof.
  induction bs as [ | b bs IH]; intros total w.
  - reflexivity.
  - cbn. rewrite IH. reflexivity.
Qed.

Lemma train_batches_losses_length (hp : Hyper) (bs : list (Batch F)) :
  forall (total : float) (w : World F),
    length (batch_losses F (trace (train_batches F hp bs total w)))
    = length bs.
Proof.
  induction bs as [ | b bs IH]; intros total w.
  - reflexivity.
  - cbn. f_equal. apply IH.
Qed.

(** The batch loop leaves the mode flag, the learning rate, the scheduler
    and the checkpoint file alone. *)
Lemma train_batches_frame (hp : Hyper) (bs : list (Batch F)) :
  forall (total : float) (w : World F),
    let w' := world (train_batches F hp bs total w) in
    training w' = training w /\ lr w' = lr w /\ sched w' = sched w
    /\ model_pth w' = model_pth w.
Proof.
  induction bs as [ | b bs IH]; intros total w.
  - cbn. repeat split.
  - cbn. cbn in IH.
    match goal with
    | |- context [train_batches F hp bs ?t ?w1] =>
        destruct (IH t w1) as (H1 & H2 & H3 & H4)
    end.
    rewrite H1, H2, H3, H4. cbn. repeat split.
Qed.

Lemma train_batches_class (hp : Hyper) (bs : list (Batch F)) :
  forall (total : float) (w : World F),
    forallb (is_train_batch_event F) (trace (train_batches F hp bs total w))
    = true.
Proof.
  induction bs as [ | b bs IH]; intros total w.
  - reflexivity.
  - cbn. apply IH.
Qed.

Lemma train_batches_opt_steps (hp : Hyper) (bs : list (Batch F)) :
  forall (total : float) (w : World F),
    count F (is_opt_step F) (trace (train_batches F hp bs total w))
    = length bs.
Proof.
  induction bs as [ | b bs IH]; intros total w.
  - reflexivity.
  - unfold count in *. cbn. f_equal. apply IH.
Qed.

(** [train] in closed form, over the batch loop run in training mode. *)
Lemma train_spec (hp : Hyper) (train_loader : list (Batch F)) (w : World F) :
  let o := train_batches F hp train_loader zero (set_training true w) in
  train F hp train_loader w =
  mkOutcome
    (truediv (fold_left add (batch_losses F (trace o)) zero)
             (Z.of_nat (length train_loader)))
    (scheduled (world o))
    (EvModelTrain :: trace o ++ [EvSchedStep]).
Proof.
  intro o. unfold train, bind. cbn. rewrite train_batches_res. reflexivity.
Qed.

Lemma train_lr (hp : Hyper) (train_loader : list (Batch F)) (w : World F) :
  lr (world (train F hp train_loader w))
  = snd (scheduler_step F (sched w) (lr w)).
Proof.
  rewrite train_spec. cbn.
  destruct (train_batches_frame hp train_loader zero (set_training true w))
    as (_ & H2 & H3 & _).
  cbn in H2, H3. rewrite H2, H3. reflexivity.
Qed.

Lemma train_model_pth (hp : Hyper) (train_loader : list (Batch F)) (w : World F) :
  model_pth (world (train F hp train_loader w)) = model_pth w.
Proof.
  rewrite train_spec. cbn.
  destruct (train_batches_frame hp train_loader zero (set_training true w))
    as (_ & _ & _ & H4).
  exact H4.
Qed.

Lemma train_returns (hp : Hyper) (train_loader : list (Batch F)) (w : World F) :
  train_loader <> [] -> exists v, res (train F hp train_loader w) = Ok v.
Proof.
  intros H. destruct train_loader as [ | b bs]; [congruence | ].
  rewrite train_spec. cbn [res length]. rewrite truediv_pos. eauto.
Qed.

Lemma validate_returns (val_loader : list (Batch F)) (w : World F) :
  val_loader <> [] -> exists v, res (validate F val_loader w) = Ok v.
Proof.
  intros H. destruct val_loader as [ | b bs]; [congruence | ].
  rewrite validate_spec. cbn [res length]. rewrite truediv_pos. eauto.
Qed.

End Passes.

(* ===================================================================== *)
(** ** One epoch, and the loop over epochs *)
(* ===================================================================== *)

Section Epochs.

Variable F : Framework.
Variable hp : Hyper.
Variable train_loader : nat -> list (Batch F).
Variable val_loader : list (Batch F).
Variable log_wandb : bool.
Variable patience : Z.

Local Abbreviation epoch_body' :=
  (epoch_body F hp train_loader val_loader log_wandb patience).
Local Abbreviation epochs_loop' :=
  (epochs_loop F hp train_loader val_loader log_wandb patience).

(** The body of the loop in closed form, over the outcomes of its calls to
    [train] and [validate]. *)
Lemma epoch_body_unfold (epoch : nat) (st : LoopState) (w : World F) :
  let ot := train F hp (train_loader epoch) w in
  let ov := validate F val_loader (world ot) in
  epoch_body' epoch st w =
  match res ot with
  | Raise e => mkOutcome (Raise e) (world ot) (trace ot)
  | Ok tl =>
      match res ov with
      | Raise e => mkOutcome (Raise e) (world ov) (trace ot ++ trace ov)
      | Ok vl =>
          let w2 := world ov in
          let improved := ltb vl (best_val_loss st) in
          let st' :=
            if improved then mkLoop vl 0
            else mkLoop (best_val_loss st) (patience_counter st + 1) in
          let stop := patience <=? patience_counter st' in
          mkOutcome
            (Ok (st', if stop then Break else Continue))
            (if improved then saved w2 else w2)
            (trace ot ++ trace ov ++
             EvReadLR (lr w2) ::
             EvPrintEpoch (Z.of_nat epoch + 1) tl vl (lr w2) ::
             (if improved then [EvSave (parameters w2)] else []) ++
             (if stop then [EvPrintStop patience]
              else if log_wandb then [EvLog tl vl (best_val_loss st') (lr w2)]
              else [EvPrintSkip]))
      end
  end.
Proof.
  cbv zeta. unfold epoch_body, bind.
  destruct (train F hp (train_loader epoch) w) as [[tl | e] wt tt];
    cbn [res world trace]; [ | reflexivity].
  destruct (validate F val_loader wt) as [[vl | e] wv tv];
    cbn [res world trace]; [ | reflexivity].
  unfold update_best, bind.
  destruct (ltb vl (best_val_loss st)); cbn;
    destruct (patience <=? _); cbn; try destruct log_wandb; cbn;
    reflexivity.
Qed.

Lemma epochs_loop_S (n epoch : nat) (st : LoopState) (w : World F) :
  let o := epoch_body' epoch st w in
  epochs_loop' (S n) epoch st w =
  match res o with
  | Raise e => mkOutcome (Raise e) (world o) (trace o)
  | Ok (st1, Break) => mkOutcome (Ok (st1, Break)) (world o) (trace o)
  | Ok (st1, Continue) =>
      let o' := epochs_loop' n (S epoch) st1 (world o) in
      mkOutcome (res o') (world o') (trace o ++ trace o')
  end.
Proof.
  cbv zeta. cbn [epochs_loop]. unfold bind at 1.
  destruct (epoch_body' epoch st w) as [[[st1 [ | ]] | e] w1 t1];
    cbn [res world trace fst snd]; try reflexivity.
  rewrite app_nil_r. reflexivity.
Qed.

(** Loop rule.  [P st fl w t] reads: the loop variables are [st], the last
    iteration ended with [fl], the world is [w] and the loop has made the
    calls [t] so far.  A property that one iteration carries from a loop
    head to its end holds when the loop returns. *)
Lemma epochs_loop_rule (P : LoopState -> Flow -> World F -> list (Event F) -> Prop) :
  (forall epoch st w t st1 fl,
      P st Continue w t ->
      res (epoch_body' epoch st w) = Ok (st1, fl) ->
      P st1 fl (world (epoch_body' epoch st w))
        (t ++ trace (epoch_body' epoch st w))) ->
  forall n epoch st w t st' fl,
    P st Continue w t ->
    res (epochs_loop' n epoch st w) = Ok (st', fl) ->
    P st' fl (world (epochs_loop' n epoch st w))
      (t ++ trace (epochs_loop' n epoch st w)).
Proof.
  intros Step. induction n as [ | n IH]; intros epoch st w t st' fl HP Hres.
  - cbn in *. injection Hres as <- <-. rewrite app_nil_r. exact HP.
  - rewrite epochs_loop_S in *. cbv zeta in *.
    specialize (Step epoch st w t).
    destruct (res (epoch_body' epoch st w)) as [[st1 [ | ]] | e];
      cbn [res world trace] in *.
    + rewrite app_assoc. apply IH; [ | exact Hres].
      apply Step; [exact HP | reflexivity].
    + injection Hres as <- <-. apply Step; [exact HP | reflexivity].
    + discriminate.
Qed.

(** The loop returns whenever each of its calls to [train] and [validate]
    does. *)
Lemma epochs_loop_returns (n : nat) :
  (forall k, train_loader k <> []) -> val_loader <> [] ->
  forall epoch st w, exists sf, res (epochs_loop' n epoch st w) = Ok sf.
Proof.
  intros Ht Hv. induction n as [ | n IH]; intros epoch st w.
  - cbn. eauto.
  - rewrite epochs_loop_S. cbv zeta. rewrite epoch_body_unfold. cbv zeta.
    destruct (train_returns F hp (train_loader epoch) w (Ht epoch)) as [tl ->].
    destruct (validate_returns F val_loader
                (world (train F hp (train_loader epoch) w)) Hv) as [vl ->].
    cbn [res world trace].
    destruct (patience <=? _); cbn [res world trace]; [eauto | apply IH].
Qed.

End Epochs.

(** The run in closed form: a [ValueError] right after the setup calls when
    the training set is empty, and otherwise the loop started in the
    initial state. *)
Lemma run_epochs_spec (F : Framework) (hp : Hyper) (df : DataFrame (Payload F))
    (merge_train_val log_wandb : bool) (patience : Z) (w : World F) :
  let frames := split_frames merge_train_val df in
  let o := epochs_loop F hp (shuffled F hp (fst frames))
             (batches F hp (snd frames)) log_wandb patience
             (range_len (epochs hp)) 0%nat init_state w in
  run_epochs F hp df merge_train_val log_wandb patience w =
  match shuffled F hp (fst frames) 0%nat with
  | [] => mkOutcome (Raise ValueError) w
                    [EvSeed 42; EvMakedirs; EvPickleDump hp]
  | _ :: _ => mkOutcome (res o) (world o)
                (EvSeed 42 :: EvMakedirs :: EvPickleDump hp :: trace o)
  end.
Proof.
  cbv zeta. unfold run_epochs, bind. cbn [emit res world trace].
  destruct (shuffled F hp (fst (split_frames merge_train_val df)) 0%nat);
    reflexivity.
Qed.

Lemma run_epochs_nonempty (F : Framework) (hp : Hyper)
    (df : DataFrame (Payload F)) (merge_train_val log_wandb : bool)
    (patience : Z) (w : World F) :
  shuffled F hp (fst (split_frames merge_train_val df)) 0%nat <> [] ->
  let frames := split_frames merge_train_val df in
  let o := epochs_loop F hp (shuffled F hp (fst frames))
             (batches F hp (snd frames)) log_wandb patience
             (range_len (epochs hp)) 0%nat init_state w in
  run_epochs F hp df merge_train_val log_wandb patience w =
  mkOutcome (res o) (world o)
            (EvSeed 42 :: EvMakedirs :: EvPickleDump hp :: trace o).
Proof.
  intros H. cbv zeta. rewrite run_epochs_spec. cbv zeta.
  destruct (shuffled F hp (fst (split_frames merge_train_val df)) 0%nat);
    [congruence | reflexivity].
Qed.

Lemma run_epochs_empty (F : Framework) (hp : Hyper)
    (df : DataFrame (Payload F)) (merge_train_val log_wandb : bool)
    (patience : Z) (w : World F) :
  shuffled F hp (fst (split_frames merge_train_val df)) 0%nat = [] ->
  run_epochs F hp df merge_train_val log_wandb patience w =
  mkOutcome (Raise ValueError) w [EvSeed 42; EvMakedirs; EvPickleDump hp].
Proof.
  intros H. rewrite run_epochs_spec. cbv zeta. rewrite H. reflexivity.
Qed.

(** A run that gets to its loop has a training set with samples. *)
Lemma run_epochs_ok_inv (F : Framework) (hp : Hyper)
    (df : DataFrame (Payload F)) (merge_train_val log_wandb : bool)
    (patience : Z) (w : World F) (sf : LoopState * Flow) :
  res (run_epochs F hp df merge_train_val log_wandb patience w) = Ok sf ->
  shuffled F hp (fst (split_frames merge_train_val df)) 0%nat <> [].
Proof.
  intros H E. rewrite (run_epochs_empty F hp df _ _ _ w E) in H.
  discriminate.
Qed.

Lemma train_loop_spec (F : Framework) (hp : Hyper) (df : DataFrame (Payload F))
    (merge_train_val log_wandb : bool) (patience : Z)
    (disk0 : option (Params F)) :
  let o := run_epochs F hp df merge_train_val log_wandb patience
                      (init_world F hp disk0) in
  train_loop F hp df merge_train_val log_wandb patience disk0 =
  mkOutcome
    (match res o with
     | Ok sf => Ok (best_val_loss (fst sf))
     | Raise e => Raise e
     end)
    (world o) (trace o).
Proof.
  cbv zeta. unfold train_loop, bind.
  destruct (run_epochs F hp df merge_train_val log_wandb patience
                       (init_world F hp disk0)) as [[sf | e] w t];
    cbn [res world trace ret]; [rewrite app_nil_r | ]; reflexivity.
Qed.

Lemma nil_or_not {A : Type} (l : list A) : l = [] \/ l <> [].
Proof. destruct l; [left; reflexivity | right; discriminate]. Qed.

(** A run on a training set with samples, over its epoch loop. *)
Lemma train_loop_nonempty (F : Framework) (hp : Hyper)
    (df : DataFrame (Payload F)) (merge_train_val log_wandb : bool)
    (patience : Z) (disk0 : option (Params F)) :
  shuffled F hp (fst (split_frames merge_train_val df)) 0%nat <> [] ->
  let frames := split_frames merge_train_val df in
  let o := epochs_loop F hp (shuffled F hp (fst frames))
             (batches F hp (snd frames)) log_wandb patience
             (range_len (epochs hp)) 0%nat init_state
             (init_world F hp disk0) in
  train_loop F hp df merge_train_val log_wandb patience disk0 =
  mkOutcome
    (match res o with
     | Ok sf => Ok (best_val_loss (fst sf))
     | Raise e => Raise e
     end)
    (world o)
    (EvSeed 42 :: EvMakedirs :: EvPickleDump hp :: trace o).
Proof.
  intros H. cbv zeta. rewrite train_loop_spec. cbv zeta.
  rewrite (run_epochs_nonempty F hp df merge_train_val log_wandb patience
             _ H).
  reflexivity.
Qed.

(** A run on a training set without samples stops at line 112. *)
Lemma train_loop_empty (F : Framework) (hp : Hyper)
    (df : DataFrame (Payload F)) (merge_train_val log_wandb : bool)
    (patience : Z) (disk0 : option (Params F)) :
  shuffled F hp (fst (split_frames merge_train_val df)) 0%nat = [] ->
  train_loop F hp df merge_train_val log_wandb patience disk0 =
  mkOutcome (Raise ValueError) (init_world F hp disk0)
            [EvSeed 42; EvMakedirs; EvPickleDump hp].
Proof.
  intros H. rewrite train_loop_spec. cbv zeta.
  rewrite (run_epochs_empty F hp df merge_train_val log_wandb patience
             _ H).
  reflexivity.
Qed.

Lemma train_loop_ok_inv (F : Framework) (hp : Hyper)
    (df : DataFrame (Payload F)) (merge_train_val log_wandb : bool)
    (patience : Z) (disk0 : option (Params F)) (r : float) :
  res (train_loop F hp df merge_train_val log_wandb patience disk0) = Ok r ->
  shuffled F hp (fst (split_frames merge_train_val df)) 0%nat <> [].
Proof.
  intros H E.
  rewrite (train_loop_empty F hp df merge_train_val log_wandb patience
             disk0 E) in H.
  discriminate.
Qed.

(* ===================================================================== *)
(** ** The partition of the dataframe *)
(* ===================================================================== *)

Section FrameProofs.

Variable Payload : Type.

Lemma rows_relabel (rs : list (Row Payload)) :
  forall i, rows (relabel i rs) = rs.
Proof.
  induction rs as [ | r rs IH]; intros i; cbn.
  - reflexivity.
  - f_equal. apply IH.
Qed.

Lemma rows_select (mask : Row Payload -> bool) (df : DataFrame Payload) :
  rows (select mask df) = filter mask (rows df).
Proof.
  unfold rows, select.
  induction df as [ | [i r] df IH]; cbn.
  - reflexivity.
  - destruct (mask r); cbn; rewrite IH; reflexivity.
Qed.

Lemma rows_reset_select (mask : Row Payload -> bool) (df : DataFrame Payload) :
  rows (reset_index (select mask df)) = filter mask (rows df).
Proof. unfold reset_index. rewrite rows_relabel. apply rows_select. Qed.

Lemma index_relabel (rs : list (Row Payload)) :
  forall i, index (relabel i rs)
            = map (fun k => i + Z.of_nat k) (seq 0 (length rs)).
Proof.
  induction rs as [ | r rs IH]; intros i; cbn.
  - reflexivity.
  - f_equal; [lia | ].
    change (map fst (relabel (i + 1) rs)) with (index (relabel (i + 1) rs)).
    rewrite IH, <- seq_shift, map_map.
    apply map_ext. intros k. lia.
Qed.

End FrameProofs.

(** C7. With [merge_train_val] the training frame holds exactly the rows
    whose [train] or [val] column is true and the validation frame exactly
    the rows whose [test] column is true; without it, the rows whose [train]
    column is true and those whose [val] column is true.  Rows keep their
    order and multiplicity, and are relabelled from 0. *)
Theorem split_frames_rows (Payload : Type) (df : DataFrame Payload) :
  let merged := split_frames true df in
  let plain := split_frames false df in
  rows (fst merged) = filter (fun r => train_col r || val_col r) (rows df)
  /\ rows (snd merged) = filter test_col (rows df)
  /\ rows (fst plain) = filter train_col (rows df)
  /\ rows (snd plain) = filter val_col (rows df)
  /\ (forall r, In r (rows (fst merged)) <->
                In r (rows df) /\ (train_col r = true \/ val_col r = true))
  /\ (forall r, In r (rows (snd merged)) <->
                In r (rows df) /\ test_col r = true)
  /\ (forall r, In r (rows (fst plain)) <->
                In r (rows df) /\ train_col r = true)
  /\ (forall r, In r (rows (snd plain)) <->
                In r (rows df) /\ val_col r = true)
  /\ index (fst merged)
     = map Z.of_nat (seq 0 (length (rows (fst merged)))).
Proof.
  cbv zeta. unfold split_frames. cbn [fst snd].
  rewrite !rows_reset_select.
  assert (M : forall mask r, In r (filter mask (rows df)) <->
                             In r (rows df) /\ mask r = true)
    by (intros mask r; apply filter_In).
  do 4 (split; [reflexivity | ]).
  split; [intros r; rewrite M, orb_true_iff; reflexivity | ].
  do 3 (split; [intros r; apply M | ]).
  unfold reset_index. rewrite index_relabel, rows_select.
  apply map_ext. intros k. lia.
Qed.

(* ===================================================================== *)
(** ** Claims on [train] and [validate] *)
(* ===================================================================== *)

(** C9. [validate] leaves the parameters, the gradient buffers, the
    optimizer (its state and its learning rate), the scheduler and the
    checkpoint file as they were; its one write is the mode flag, set to
    evaluation.  The calls it makes are [model.eval()], one forward pass
    per batch with gradient tracking off, and the progress bar. *)
Theorem validate_read_only (F : Framework) (val_loader : list (Batch F))
    (w : World F) :
  let o := validate F val_loader w in
  parameters (world o) = parameters w
  /\ grads (world o) = grads w
  /\ opt_state (world o) = opt_state w
  /\ lr (world o) = lr w
  /\ sched (world o) = sched w
  /\ model_pth (world o) = model_pth w
  /\ training (world o) = false
  /\ forallb (is_validate_event F) (trace o) = true
  /\ count F (is_forward F false) (trace o) = length val_loader
  /\ count F (is_forward F true) (trace o) = 0%nat
  /\ count F (is_opt_step F) (trace o) = 0%nat.
Proof.
  cbv zeta.
  pose proof (validate_trace_class F val_loader w) as Hc.
  pose proof (validate_trace_forwards F val_loader w) as Hf.
  rewrite validate_spec in *. cbn [world trace set_training parameters grads
    opt_state lr sched model_pth training].
  repeat split; try assumption.
  - apply (class_excludes F (is_validate_event F)); [ | exact Hc].
    intros [ | | | | | | [ | ] | | | | | | | | | | | ]; cbn; congruence.
  - apply (class_excludes F (is_validate_event F)); [ | exact Hc].
    intros [ | | | | | | [ | ] | | | | | | | | | | | ]; cbn; congruence.
Qed.

Lemma batch_losses_train (F : Framework) (hp : Hyper)
    (train_loader : list (Batch F)) (w : World F) :
  batch_losses F (trace (train F hp train_loader w))
  = batch_losses F (trace (train_batches F hp train_loader zero
                                         (set_training true w))).
Proof.
  rewrite train_spec. cbn [trace].
  change (EvModelTrain :: ?t) with ([@EvModelTrain F] ++ t).
  rewrite !batch_losses_app. cbn. apply app_nil_r.
Qed.

(** C6, as amended.  [train] returns the sum of the per-batch losses,
    accumulated in binary64 from 0 in the order of the batches, divided by
    the number of batches; there are as many losses as batches. *)
Theorem train_returns_mean (F : Framework) (hp : Hyper)
    (train_loader : list (Batch F)) (w : World F) :
  let o := train F hp train_loader w in
  let losses := batch_losses F (trace o) in
  length losses = length train_loader
  /\ res o = truediv (fold_left add losses zero)
                     (Z.of_nat (length train_loader))
  /\ (train_loader <> [] ->
      res o = Ok (div (fold_left add losses zero)
                      (of_int (Z.of_nat (length train_loader))))).
Proof.
  cbv zeta. rewrite batch_losses_train.
  split; [apply train_batches_losses_length | ].
  assert (E : res (train F hp train_loader w)
              = truediv
                  (fold_left add
                     (batch_losses F
                        (trace (train_batches F hp train_loader zero
                                              (set_training true w)))) zero)
                  (Z.of_nat (length train_loader))).
  { rewrite train_spec. reflexivity. }
  split; [exact E | ].
  intros H. rewrite E.
  destruct train_loader as [ | b bs]; [congruence | ].
  cbn [length]. apply truediv_pos.
Qed.

(* ===================================================================== *)
(** ** What one epoch does *)
(* ===================================================================== *)

Arguments train : simpl never.
Arguments validate : simpl never.
Arguments epoch_body : simpl never.

Section EpochFacts.

Variable F : Framework.
Variable hp : Hyper.
Variable train_loader : nat -> list (Batch F).
Variable val_loader : list (Batch F).
Variable log_wandb : bool.
Variable patience : Z.

Local Abbreviation epoch_body' :=
  (epoch_body F hp train_loader val_loader log_wandb patience).
Local Abbreviation epochs_loop' :=
  (epochs_loop F hp train_loader val_loader log_wandb patience).

Lemma train_trace_class (loader : list (Batch F)) (w : World F) :
  forallb (is_pass_event F) (trace (train F hp loader w)) = true.
Proof.
  rewrite train_spec. cbn [trace forallb is_pass_event andb].
  rewrite forallb_app. cbn. rewrite andb_true_r.
  pose proof (train_batches_class F hp loader zero (set_training true w)) as H.
  rewrite forallb_forall in *. intros ev Hev. specialize (H ev Hev).
  destruct ev as [ | | | | | | [ | ] | | | | | | | | | | | ];
    try discriminate; reflexivity.
Qed.

Lemma validate_pass_class (loader : list (Batch F)) (w : World F) :
  forallb (is_pass_event F) (trace (validate F loader w)) = true.
Proof.
  pose proof (validate_trace_class F loader w) as H.
  rewrite forallb_forall in *. intros ev Hev. specialize (H ev Hev).
  destruct ev as [ | | | | | | [ | ] | | | | | | | | | | | ];
    try discriminate; reflexivity.
Qed.

(** The two passes print no epoch line, save no checkpoint, log nothing
    and do not read the learning rate. *)
Lemma passes_silent (p : Event F -> bool) (l1 l2 : list (Batch F))
    (w1 w2 : World F) :
  (forall ev, is_pass_event F ev = true -> p ev = false) ->
  count F p (trace (train F hp l1 w1) ++ trace (validate F l2 w2)) = 0%nat
  /\ existsb p (trace (train F hp l1 w1) ++ trace (validate F l2 w2)) = false.
Proof.
  intros D.
  destruct (class_excludes F (is_pass_event F) p
              (trace (train F hp l1 w1) ++ trace (validate F l2 w2)) D)
    as [H1 H2]; [ | split; assumption].
  rewrite forallb_app, train_trace_class, validate_pass_class. reflexivity.
Qed.

(** What an iteration that returns has done. *)
Lemma epoch_body_inv (epoch : nat) (st st1 : LoopState) (fl : Flow)
    (w : World F) :
  res (epoch_body' epoch st w) = Ok (st1, fl) ->
  exists tl vl,
    let ot := train F hp (train_loader epoch) w in
    let ov := validate F val_loader (world ot) in
    let improved := ltb vl (best_val_loss st) in
    let stop := patience <=? patience_counter st1 in
    res ot = Ok tl /\ res ov = Ok vl
    /\ st1 = (if improved then mkLoop vl 0
              else mkLoop (best_val_loss st) (patience_counter st + 1))
    /\ fl = (if stop then Break else Continue)
    /\ world (epoch_body' epoch st w)
       = (if improved then saved (world ov) else world ov)
    /\ trace (epoch_body' epoch st w)
       = (trace ot ++ trace ov) ++
         EvReadLR (lr (world ov)) ::
         EvPrintEpoch (Z.of_nat epoch + 1) tl vl (lr (world ov)) ::
         (if improved then [EvSave (parameters (world ov))] else []) ++
         (if stop then [EvPrintStop patience]
          else if log_wandb
               then [EvLog tl vl (best_val_loss st1) (lr (world ov))]
               else [EvPrintSkip]).
Proof.
  rewrite epoch_body_unfold. cbv zeta.
  destruct (res (train F hp (train_loader epoch) w)) as [tl | e];
    [ | discriminate].
  destruct (res (validate F val_loader
                   (world (train F hp (train_loader epoch) w))))
    as [vl | e]; [ | discriminate].
  cbn [res world trace]. intros H. injection H as <- <-.
  exists tl, vl. rewrite app_assoc. repeat split; reflexivity.
Qed.

(** An iteration that raises has not reached its print. *)
Lemma epoch_body_raise (epoch : nat) (st : LoopState) (w : World F) (e : exn)
    (p : Event F -> bool) :
  (forall ev, is_pass_event F ev = true -> p ev = false) ->
  res (epoch_body' epoch st w) = Raise e ->
  count F p (trace (epoch_body' epoch st w)) = 0%nat.
Proof.
  intros D. rewrite epoch_body_unfold. cbv zeta.
  destruct (res (train F hp (train_loader epoch) w)) as [tl | e1].
  - destruct (res (validate F val_loader
                     (world (train F hp (train_loader epoch) w))))
      as [vl | e2]; [discriminate | ].
    cbn [res world trace]. intros _. apply passes_silent, D.
  - cbn [res world trace]. intros _.
    apply (class_excludes F (is_pass_event F)); [exact D | ].
    apply train_trace_class.
Qed.

Lemma pass_not_print (ev : Event F) :
  is_pass_event F ev = true -> is_print_epoch F ev = false.
Proof. destruct ev; cbn; congruence. Qed.

Lemma pass_not_save (ev : Event F) :
  is_pass_event F ev = true -> is_save F ev = false.
Proof. destruct ev; cbn; congruence. Qed.

Lemma pass_not_log (ev : Event F) :
  is_pass_event F ev = true -> is_log F ev = false.
Proof. destruct ev; cbn; congruence. Qed.


(** The counts of an iteration that returns: one print; one save exactly
    on an improvement; one log exactly when logging is on and the loop
    goes on. *)
Lemma epoch_body_counts (epoch : nat) (st st1 : LoopState) (fl : Flow)
    (w : World F) :
  res (epoch_body' epoch st w) = Ok (st1, fl) ->
  let t := trace (epoch_body' epoch st w) in
  count F (is_print_epoch F) t = 1%nat
  /\ count F (is_log F) t
     = (match fl with
        | Continue => if log_wandb then 1 else 0
        | Break => 0
        end)%nat
  /\ (exists vl,
        res (validate F val_loader
               (world (train F hp (train_loader epoch) w))) = Ok vl
        /\ val_losses F t = [vl]
        /\ count F (is_save F) t
           = (if ltb vl (best_val_loss st) then 1 else 0)%nat).
Proof.
  intros H. destruct (epoch_body_inv epoch st st1 fl w H)
    as (tl & vl & Ht & Hv & Hst & Hfl & Hw & Htr).
  cbv zeta in *. rewrite Htr.
  split; [ | split].
  - rewrite count_app.
    rewrite (proj1 (passes_silent _ _ _ _ _ pass_not_print)).
    destruct (ltb vl (best_val_loss st)), (patience <=? patience_counter st1),
      log_wandb; reflexivity.
  - rewrite count_app.
    rewrite (proj1 (passes_silent _ _ _ _ _ pass_not_log)).
    rewrite Hfl.
    destruct (ltb vl (best_val_loss st)), (patience <=? patience_counter st1),
      log_wandb; reflexivity.
  - exists vl. split; [exact Hv | ]. split.
    + rewrite val_losses_app, val_losses_none
        by apply (proj2 (passes_silent _ _ _ _ _ pass_not_print)).
      destruct (ltb vl (best_val_loss st)),
        (patience <=? patience_counter st1), log_wandb; reflexivity.
    + rewrite count_app.
      rewrite (proj1 (passes_silent _ _ _ _ _ pass_not_save)).
      destruct (ltb vl (best_val_loss st)),
        (patience <=? patience_counter st1), log_wandb; reflexivity.
Qed.

End EpochFacts.

(* ===================================================================== *)
(** ** What the loop maintains *)
(* ===================================================================== *)

Section LoopFacts.

Variable F : Framework.
Variable hp : Hyper.
Variable train_loader : nat -> list (Batch F).
Variable val_loader : list (Batch F).
Variable log_wandb : bool.
Variable patience : Z.

Local Abbreviation epoch_body' :=
  (epoch_body F hp train_loader val_loader log_wandb patience).
Local Abbreviation epochs_loop' :=
  (epochs_loop F hp train_loader val_loader log_wandb patience).

(** Epochs are counted by their print.  A loop of [n] iterations that is
    not left by [break] runs [n] epochs; one left by [break] runs at least
    one and at most [n]. *)
Lemma epochs_loop_executed (n : nat) :
  forall epoch st w st' fl,
    res (epochs_loop' n epoch st w) = Ok (st', fl) ->
    let k := count F (is_print_epoch F) (trace (epochs_loop' n epoch st w)) in
    match fl with
    | Continue => k = n
    | Break => (1 <= k <= n)%nat
    end.
Proof.
  induction n as [ | n IH]; intros epoch st w st' fl H; cbv zeta.
  - cbn in *. injection H as <- <-. reflexivity.
  - rewrite epochs_loop_S in *. cbv zeta in *.
    destruct (res (epoch_body' epoch st w)) as [[st1 [ | ]] | e] eqn:E;
      cbn [res world trace] in *; [ | | discriminate].
    + destruct (epoch_body_counts F hp train_loader val_loader log_wandb
                  patience epoch st st1 Continue w E) as (Hp & _).
      rewrite count_app, Hp. specialize (IH _ _ _ _ _ H). cbv zeta in IH.
      destruct fl; lia.
    + injection H as <- <-.
      destruct (epoch_body_counts F hp train_loader val_loader log_wandb
                  patience epoch st st1 Break w E) as (Hp & _).
      rewrite Hp. lia.
Qed.

(** Every epoch run is logged, but the one that breaks out of the loop. *)
Lemma epochs_loop_logs (n : nat) :
  forall epoch st w st' fl,
    res (epochs_loop' n epoch st w) = Ok (st', fl) ->
    let t := trace (epochs_loop' n epoch st w) in
    if log_wandb then
      (count F (is_log F) t + match fl with Break => 1 | Continue => 0 end
       = count F (is_print_epoch F) t)%nat
    else count F (is_log F) t = 0%nat.
Proof.
  induction n as [ | n IH]; intros epoch st w st' fl H; cbv zeta.
  - cbn in *. injection H as <- <-. destruct log_wandb; reflexivity.
  - rewrite epochs_loop_S in *. cbv zeta in *.
    destruct (res (epoch_body' epoch st w)) as [[st1 [ | ]] | e] eqn:E;
      cbn [res world trace] in *; [ | | discriminate].
    + destruct (epoch_body_counts F hp train_loader val_loader log_wandb
                  patience epoch st st1 Continue w E) as (Hp & Hl & _).
      rewrite !count_app, Hp, Hl. specialize (IH _ _ _ _ _ H).
      cbv zeta in IH. destruct log_wandb; lia.
    + injection H as <- <-.
      destruct (epoch_body_counts F hp train_loader val_loader log_wandb
                  patience epoch st st1 Break w E) as (Hp & Hl & _).
      rewrite Hp, Hl. destruct log_wandb; reflexivity.
Qed.

(** With a patience of at least 1, the counter stays below the patience
    while the loop goes on and equals it when the loop breaks. *)
Lemma epochs_loop_counter (n : nat) :
  1 <= patience ->
  forall epoch st w st' fl,
    0 <= patience_counter st < patience ->
    res (epochs_loop' n epoch st w) = Ok (st', fl) ->
    match fl with
    | Continue => 0 <= patience_counter st' < patience
    | Break => patience_counter st' = patience
    end.
Proof.
  intros Hp epoch st w st' fl Hc H.
  apply (epochs_loop_rule F hp train_loader val_loader log_wandb patience
           (fun st fl _ _ =>
              match fl with
              | Continue => 0 <= patience_counter st < patience
              | Break => patience_counter st = patience
              end))
    with (t := []) in H; [exact H | | exact Hc].
  clear. intros epoch st w _ st1 fl Hc E.
  destruct (epoch_body_inv F hp train_loader val_loader log_wandb patience
              epoch st st1 fl w E) as (tl & vl & _ & _ & Hst & Hfl & _).
  cbv zeta in *. subst fl.
  destruct (Z.leb_spec patience (patience_counter st1)) as [L | L];
    subst st1; destruct (ltb vl (best_val_loss st)); cbn in *; lia.
Qed.

(** The best loss and the checkpoint.  After any number of iterations of
    the loop started in the initial state:
    - either the run has saved nothing, the checkpoint file is as it was
      found and the best loss is still infinity, or the file holds the
      parameters of the last save and validating them gives the best loss;
    - no validation loss printed so far is below the best loss;
    - the best loss is one of them if one of them is below infinity, and
      is infinity otherwise. *)
Lemma epochs_loop_best (n : nat) (w0 : World F) (st : LoopState) (fl : Flow) :
  let o := epochs_loop' n 0%nat init_state w0 in
  res o = Ok (st, fl) ->
  ((count F (is_save F) (trace o) = 0%nat
    /\ model_pth (world o) = model_pth w0
    /\ best_val_loss st = inf)
   \/ (exists p, model_pth (world o) = Some p
                 /\ In (EvSave p) (trace o)
                 /\ forall w', parameters w' = p ->
                      res (validate F val_loader w') = Ok (best_val_loss st)))
  /\ (forall v, In v (val_losses F (trace o)) ->
                ltb v (best_val_loss st) = false)
  /\ ((In (best_val_loss st) (val_losses F (trace o))
       /\ ltb (best_val_loss st) inf = true)
      \/ (best_val_loss st = inf
          /\ forall v, In v (val_losses F (trace o)) -> ltb v inf = false)).
Proof.
  cbv zeta. intros H.
  apply (epochs_loop_rule F hp train_loader val_loader log_wandb patience
           (fun st _ w t =>
              ((count F (is_save F) t = 0%nat
                /\ model_pth w = model_pth w0
                /\ best_val_loss st = inf)
               \/ (exists p, model_pth w = Some p
                             /\ In (EvSave p) t
                             /\ forall w', parameters w' = p ->
                                  res (validate F val_loader w')
                                  = Ok (best_val_loss st)))
              /\ (forall v, In v (val_losses F t) ->
                            ltb v (best_val_loss st) = false)
              /\ ((In (best_val_loss st) (val_losses F t)
                   /\ ltb (best_val_loss st) inf = true)
                  \/ (best_val_loss st = inf
                      /\ forall v, In v (val_losses F t) ->
                                   ltb v inf = false))))
    with (t := []) in H; [exact H | | ].
  - clear. intros epoch st w t st1 fl (Hdisk & Hmin & Hmem) E.
    destruct (epoch_body_counts F hp train_loader val_loader log_wandb
                patience epoch st st1 fl w E) as (_ & _ & vl' & Hv' & Hvl & Hs).
    destruct (epoch_body_inv F hp train_loader val_loader log_wandb patience
                epoch st st1 fl w E)
      as (tl & vl & Ht & Hv & Hst & Hfl & Hw & Htr).
    cbv zeta in *. rewrite Hv in Hv'. injection Hv' as <-.
    rewrite val_losses_app, count_app, Hvl, Hs, Hw.
    set (ot := train F hp (train_loader epoch) w) in *.
    assert (Hpth : model_pth (world (validate F val_loader (world ot)))
                   = model_pth w).
    { rewrite validate_spec. cbn. apply train_model_pth. }
    assert (Hpar : parameters (world (validate F val_loader (world ot)))
                   = parameters (world ot)).
    { rewrite validate_spec. reflexivity. }
    destruct (ltb vl (best_val_loss st)) eqn:Himp; subst st1; cbn.
    + split; [ | split].
      * right. exists (parameters (world (validate F val_loader (world ot)))).
        split; [reflexivity | ]. split.
        -- apply in_or_app. right. rewrite Htr. apply in_or_app. right.
           cbn. right. right. left. reflexivity.
        -- intros w' E'. rewrite <- Hv. apply validate_res_parameters.
           rewrite E'. exact Hpar.
      * intros v Hin. apply in_app_or in Hin. destruct Hin as [Hin | Hin].
        -- destruct (ltb v vl) eqn:Hlt; [ | reflexivity].
           rewrite <- (Hmin v Hin). symmetry.
           apply (ltb_trans v vl _ Hlt Himp).
        -- destruct Hin as [<- | []]. apply ltb_irrefl.
      * left. split; [apply in_or_app; right; left; reflexivity | ].
        destruct Hmem as [[_ Hlt] | [Hinf _]].
        -- apply (ltb_trans vl _ inf Himp Hlt).
        -- rewrite <- Hinf. exact Himp.
    + split; [ | split].
      * destruct Hdisk as [(Hc & Hd & Hb) | (p & Hd & Hin & Hval)].
        -- left. rewrite Hc, Hpth. repeat split; assumption.
        -- right. exists p. rewrite Hpth.
           split; [exact Hd | ]. split; [ | exact Hval].
           apply in_or_app. left. exact Hin.
      * intros v Hin. apply in_app_or in Hin. destruct Hin as [Hin | Hin].
        -- apply Hmin, Hin.
        -- destruct Hin as [<- | []]. exact Himp.
      * destruct Hmem as [[Hin Hlt] | [Hinf Hall]].
        -- left. split; [apply in_or_app; left; exact Hin | exact Hlt].
        -- right. split; [exact Hinf | ].
           intros v Hin. apply in_app_or in Hin. destruct Hin as [Hin | Hin].
           ++ apply Hall, Hin.
           ++ destruct Hin as [<- | []]. rewrite <- Hinf. exact Himp.
  - split; [ | split].
    + left. repeat split.
    + intros v [].
    + right. split; [reflexivity | intros v []].
Qed.

End LoopFacts.

(* ===================================================================== *)
(** ** Claims on the policy of [train_loop] *)
(* ===================================================================== *)

Section Policy.

Variable F : Framework.
Variable hp : Hyper.
Variable train_loader : nat -> list (Batch F).
Variable val_loader : list (Batch F).
Variable log_wandb : bool.
Variable patience : Z.

Local Abbreviation epoch_body' :=
  (epoch_body F hp train_loader val_loader log_wandb patience).
Local Abbreviation epochs_loop' :=
  (epochs_loop F hp train_loader val_loader log_wandb patience).

(** An iteration returns when its two passes do, with the state and the
    flow that lines 152-163 compute from the validation loss. *)
Lemma epoch_body_returns (epoch : nat) (st : LoopState) (w : World F)
    (tl vl : float) :
  res (train F hp (train_loader epoch) w) = Ok tl ->
  res (validate F val_loader (world (train F hp (train_loader epoch) w)))
  = Ok vl ->
  let st1 := if ltb vl (best_val_loss st) then mkLoop vl 0
             else mkLoop (best_val_loss st) (patience_counter st + 1) in
  res (epoch_body' epoch st w)
  = Ok (st1, if patience <=? patience_counter st1 then Break else Continue).
Proof.
  intros Ht Hv. cbv zeta. rewrite epoch_body_unfold. cbv zeta.
  rewrite Ht, Hv. reflexivity.
Qed.


(** C2. The patience counter starts at 0.  In every epoch it is reset to 0
    when the validation loss is strictly below the best loss so far and
    incremented by 1 otherwise, and the loop is left exactly when the
    counter is then at least the patience.  With a patience of at least 1,
    in a loop started in the initial state the counter equals the patience
    when the loop is left early and is below it when the loop runs all its
    iterations.  In the scenario with epochs=5, patience=2 and validation
    losses 0.5, 0.6, 0.7 the run stops after its third epoch and returns
    0.5. *)
Theorem patience_counter_policy :
  patience_counter init_state = 0
  /\ (forall epoch st w tl vl,
        res (train F hp (train_loader epoch) w) = Ok tl ->
        res (validate F val_loader (world (train F hp (train_loader epoch) w)))
        = Ok vl ->
        exists st1 fl,
          res (epoch_body' epoch st w) = Ok (st1, fl)
          /\ patience_counter st1
             = (if ltb vl (best_val_loss st) then 0
                else patience_counter st + 1)
          /\ (fl = Break <-> patience <= patience_counter st1))
  /\ (forall n w st fl,
        1 <= patience ->
        let o := epochs_loop' n 0%nat init_state w in
        res o = Ok (st, fl) ->
        match fl with
        | Break =>
            patience_counter st = patience
            /\ (1 <= count F (is_print_epoch F) (trace o) <= n)%nat
        | Continue =>
            0 <= patience_counter st < patience
            /\ count F (is_print_epoch F) (trace o) = n
        end)
  /\ (val_losses _ (trace Sim.scenario) = [ratio 5 10; ratio 6 10; ratio 7 10]
      /\ count _ (is_print_epoch _) (trace Sim.scenario) = 3%nat
      /\ res Sim.scenario_epochs = Ok (mkLoop (ratio 5 10) 2, Break)
      /\ res Sim.scenario = Ok (ratio 5 10)).
Proof.
  split; [reflexivity | ]. split; [ | split].
  - intros epoch st w tl vl Ht Hv.
    pose proof (epoch_body_returns epoch st w tl vl Ht Hv) as E.
    cbv zeta in E. eexists. eexists. split; [exact E | ].
    split.
    + destruct (ltb vl (best_val_loss st)); reflexivity.
    + destruct (Z.leb_spec patience
                  (patience_counter
                     (if ltb vl (best_val_loss st) then mkLoop vl 0
                      else mkLoop (best_val_loss st)
                                  (patience_counter st + 1)))) as [L | L].
      * split; [intros _; exact L | reflexivity].
      * split; [discriminate | lia].
  - intros n w st fl Hp o H.
    pose proof (epochs_loop_counter F hp train_loader val_loader log_wandb
                  patience n Hp 0%nat init_state w st fl) as Hc.
    pose proof (epochs_loop_executed F hp train_loader val_loader log_wandb
                  patience n 0%nat init_state w st fl H) as He.
    cbv zeta in He. cbn [init_state patience_counter] in Hc.
    specialize (Hc ltac:(lia) H).
    destruct fl; split; assumption.
  - vm_compute. repeat split.
Qed.

End Policy.

Section Logging.

Variable F : Framework.
Variable hp : Hyper.
Variable train_loader : nat -> list (Batch F).
Variable val_loader : list (Batch F).
Variable patience : Z.

Local Abbreviation epoch_body' :=
  (epoch_body F hp train_loader val_loader).
Local Abbreviation epochs_loop' :=
  (epochs_loop F hp train_loader val_loader).

(** The logs of one iteration, whatever its outcome. *)
Lemma epoch_body_logs (log_wandb : bool) (epoch : nat) (st : LoopState)
    (w : World F) :
  let o := epoch_body' log_wandb patience epoch st w in
  count F (is_log F) (trace o)
  = match res o with
    | Ok (_, Continue) => if log_wandb then 1%nat else 0%nat
    | _ => 0%nat
    end.
Proof.
  cbv zeta.
  destruct (res (epoch_body' log_wandb patience epoch st w))
    as [[st1 fl] | e] eqn:E.
  - destruct (epoch_body_counts F hp train_loader val_loader log_wandb
                patience epoch st st1 fl w E) as (_ & Hl & _).
    rewrite Hl. destruct fl; reflexivity.
  - apply (epoch_body_raise F hp train_loader val_loader log_wandb patience
             epoch st w e); [ | exact E].
    apply pass_not_log.
Qed.

(** With logging off the loop makes no call to the metrics sink. *)
Lemma epochs_loop_silent (n : nat) :
  forall epoch st w,
    count F (is_log F) (trace (epochs_loop' false patience n epoch st w))
    = 0%nat.
Proof.
  induction n as [ | n IH]; intros epoch st w.
  - reflexivity.
  - rewrite epochs_loop_S. cbv zeta.
    pose proof (epoch_body_logs false epoch st w) as Hl. cbv zeta in Hl.
    destruct (res (epoch_body' false patience epoch st w))
      as [[st1 [ | ]] | e]; cbn [res world trace].
    + rewrite count_app, Hl, IH. reflexivity.
    + exact Hl.
    + exact Hl.
Qed.

(** The logging flag changes neither the result nor the world of an
    iteration, and nothing of its calls but the logging ones. *)
Lemma epoch_body_log_inert (epoch : nat) (st : LoopState) (w : World F) :
  let on := epoch_body' true patience epoch st w in
  let off := epoch_body' false patience epoch st w in
  res off = res on /\ world off = world on
  /\ filter (not_logging F) (trace off) = filter (not_logging F) (trace on).
Proof.
  cbv zeta. rewrite !epoch_body_unfold. cbv zeta.
  destruct (res (train F hp (train_loader epoch) w)) as [tl | e];
    [ | split; [reflexivity | split; reflexivity]].
  destruct (res (validate F val_loader
                   (world (train F hp (train_loader epoch) w))))
    as [vl | e]; [ | split; [reflexivity | split; reflexivity]].
  cbn [res world trace]. split; [reflexivity | ]. split; [reflexivity | ].
  rewrite !filter_app.
  destruct (ltb vl (best_val_loss st)); cbn [best_val_loss patience_counter];
    destruct (patience <=? _); reflexivity.
Qed.

Lemma epochs_loop_log_inert (n : nat) :
  forall epoch st w,
    let on := epochs_loop' true patience n epoch st w in
    let off := epochs_loop' false patience n epoch st w in
    res off = res on /\ world off = world on
    /\ filter (not_logging F) (trace off) = filter (not_logging F) (trace on).
Proof.
  induction n as [ | n IH]; intros epoch st w; cbv zeta.
  - split; [reflexivity | split; reflexivity].
  - rewrite !epochs_loop_S. cbv zeta.
    destruct (epoch_body_log_inert epoch st w) as (Hr & Hw & Ht).
    rewrite Hr, Hw.
    destruct (res (epoch_body' true patience epoch st w))
      as [[st1 [ | ]] | e]; cbn [res world trace];
      [ | split; [reflexivity | split; [reflexivity | exact Ht]]
        | split; [reflexivity | split; [reflexivity | exact Ht]]].
    destruct (IH (S epoch) st1 (world (epoch_body' true patience epoch st w)))
      as (Hr' & Hw' & Ht').
    rewrite !filter_app, Ht, Ht'.
    split; [exact Hr' | split; [exact Hw' | reflexivity]].
Qed.

End Logging.

(** A run returns when every training pass and the validation loader have
    a batch. *)
Lemma train_loop_returns (F : Framework) (hp : Hyper)
    (df : DataFrame (Payload F)) (merge_train_val log_wandb : bool)
    (patience : Z) (disk0 : option (Params F)) :
  (forall k, shuffled F hp (fst (split_frames merge_train_val df)) k <> []) ->
  batches F hp (snd (split_frames merge_train_val df)) <> [] ->
  exists r,
    res (train_loop F hp df merge_train_val log_wandb patience disk0) = Ok r.
Proof.
  intros Ht Hv.
  rewrite (train_loop_nonempty F hp df merge_train_val log_wandb patience
             disk0 (Ht 0%nat)).
  cbv zeta. cbn [res world trace].
  destruct (epochs_loop_returns F hp _ _ log_wandb patience
              (range_len (epochs hp)) Ht Hv 0%nat init_state
              (init_world F hp disk0)) as [sf ->].
  eauto.
Qed.

(** C8. With [log_wandb] false the run makes no call to the metrics sink;
    it has the result, and leaves the model, the optimizer, the scheduler
    and the checkpoint file, exactly as with [log_wandb] true, and makes
    the same other calls in the same order; it returns whenever the loaders
    have batches. *)
Theorem logging_flag_is_inert (F : Framework) (hp : Hyper)
    (df : DataFrame (Payload F)) (merge_train_val : bool) (patience : Z)
    (disk0 : option (Params F)) :
  let on := train_loop F hp df merge_train_val true patience disk0 in
  let off := train_loop F hp df merge_train_val false patience disk0 in
  count F (is_log F) (trace off) = 0%nat
  /\ res off = res on
  /\ world off = world on
  /\ filter (not_logging F) (trace off) = filter (not_logging F) (trace on)
  /\ ((forall k, shuffled F hp (fst (split_frames merge_train_val df)) k
                 <> []) ->
      batches F hp (snd (split_frames merge_train_val df)) <> [] ->
      exists r, res off = Ok r).
Proof.
  cbv zeta.
  destruct (nil_or_not
              (shuffled F hp (fst (split_frames merge_train_val df)) 0%nat))
    as [Hempty | Hsome].
  { rewrite !(train_loop_empty F hp df merge_train_val _ patience disk0
                Hempty).
    cbn [res world trace].
    split; [reflexivity | ].
    split; [reflexivity | ].
    split; [reflexivity | ].
    split; [reflexivity | ].
    intros Hl _. destruct (Hl 0%nat Hempty). }
  rewrite !(train_loop_nonempty F hp df merge_train_val _ patience disk0
              Hsome).
  cbv zeta. cbn [res world trace].
  destruct (epochs_loop_log_inert F hp
              (shuffled F hp (fst (split_frames merge_train_val df)))
              (batches F hp (snd (split_frames merge_train_val df)))
              patience (range_len (epochs hp)) 0%nat init_state
              (init_world F hp disk0)) as (Hr & Hw & Ht).
  pose proof (epochs_loop_silent F hp
                (shuffled F hp (fst (split_frames merge_train_val df)))
                (batches F hp (snd (split_frames merge_train_val df)))
                patience (range_len (epochs hp)) 0%nat init_state
                (init_world F hp disk0)) as Hs.
  split; [exact Hs | ].
  split; [rewrite Hr; reflexivity | ].
  split; [exact Hw | ].
  split; [cbn [filter not_logging]; rewrite Ht; reflexivity | ].
  intros Hl Hv.
  destruct (train_loop_returns F hp df merge_train_val false patience disk0
              Hl Hv) as [r Hres].
  rewrite (train_loop_nonempty F hp df merge_train_val false patience disk0
             Hsome) in Hres.
  cbv zeta in Hres. exists r. exact Hres.
Qed.

(** C5, as amended.  With logging on, an epoch is logged exactly when it
    does not break out of the loop: the epoch that triggers the early stop
    is not logged, every other epoch is, and so is the last epoch of a run
    that exhausts its budget. *)
Theorem logging_skipped_only_on_break (F : Framework) (hp : Hyper)
    (train_loader : nat -> list (Batch F)) (val_loader : list (Batch F))
    (log_wandb : bool) (patience : Z) :
  (forall epoch st w,
      let o := epoch_body F hp train_loader val_loader log_wandb patience
                          epoch st w in
      count F (is_log F) (trace o)
      = match res o with
        | Ok (_, Continue) => if log_wandb then 1%nat else 0%nat
        | _ => 0%nat
        end)
  /\ (forall n epoch st w st' fl,
        let o := epochs_loop F hp train_loader val_loader log_wandb patience
                             n epoch st w in
        res o = Ok (st', fl) ->
        if log_wandb then
          (count F (is_log F) (trace o)
           + match fl with Break => 1 | Continue => 0 end
           = count F (is_print_epoch F) (trace o))%nat
        else count F (is_log F) (trace o) = 0%nat)
  /\ (forall n epoch st w st',
        let o := epochs_loop F hp train_loader val_loader log_wandb patience
                             n epoch st w in
        res o = Ok (st', Continue) ->
        log_wandb = true ->
        count F (is_print_epoch F) (trace o) = n
        /\ count F (is_log F) (trace o) = n).
Proof.
  split; [ | split].
  - intros epoch st w. apply epoch_body_logs.
  - intros n epoch st w st' fl o H. apply (epochs_loop_logs F hp _ _ _ _ n
      epoch st w st' fl H).
  - intros n epoch st w st' o H ->.
    pose proof (epochs_loop_logs F hp _ _ _ _ n epoch st w st' Continue H)
      as Hl.
    pose proof (epochs_loop_executed F hp _ _ _ _ n epoch st w st' Continue H)
      as He.
    cbv beta iota zeta in Hl, He. subst o. split; [exact He | lia].
Qed.

(** C3, as amended.  The value [train_loop] returns has no validation loss
    of the run below it; it is one of them when one of them is below
    infinity, and it is infinity otherwise: when the epoch budget is 0 or
    less, the training set has samples and no epoch ran, and also when
    every validation loss was NaN or infinite.  On a training set without
    samples the run returns nothing, whatever the budget: it raises
    [ValueError] before any epoch.  The run returns when the loaders have
    batches. *)
Theorem train_loop_returns_least_loss (F : Framework) (hp : Hyper)
    (df : DataFrame (Payload F)) (merge_train_val log_wandb : bool)
    (patience : Z) (disk0 : option (Params F)) :
  let o := train_loop F hp df merge_train_val log_wandb patience disk0 in
  let observed := val_losses F (trace o) in
  (forall r, res o = Ok r ->
     (forall v, In v observed -> ltb v r = false)
     /\ ((exists v, In v observed /\ ltb v inf = true) -> In r observed)
     /\ ((forall v, In v observed -> ltb v inf = false) -> r = inf))
  /\ (epochs hp <= 0 ->
      shuffled F hp (fst (split_frames merge_train_val df)) 0%nat <> [] ->
      res o = Ok inf /\ observed = [])
  /\ (shuffled F hp (fst (split_frames merge_train_val df)) 0%nat = [] ->
      res o = Raise ValueError /\ observed = [])
  /\ ((forall k, shuffled F hp (fst (split_frames merge_train_val df)) k
                 <> []) ->
      batches F hp (snd (split_frames merge_train_val df)) <> [] ->
      exists r, res o = Ok r).
Proof.
  cbv zeta. split; [ | split; [ | split]].
  - intros r Hok.
    pose proof (train_loop_ok_inv F hp df merge_train_val log_wandb patience
                  disk0 r Hok) as Hsome.
    revert Hok.
    rewrite (train_loop_nonempty F hp df merge_train_val log_wandb patience
               disk0 Hsome).
    cbv zeta. cbn [res world trace].
    set (o := epochs_loop F hp _ _ log_wandb patience _ 0%nat init_state _).
    change (val_losses F (EvSeed 42 :: EvMakedirs :: EvPickleDump hp :: trace o))
      with (val_losses F (trace o)).
    destruct (res o) as [[st fl] | e] eqn:E; [ | discriminate].
    cbn [fst]. intros H. injection H as <-.
    destruct (epochs_loop_best F hp _ _ log_wandb patience _ _ st fl E)
      as (_ & Hmin & Hmem).
    fold o in Hmin, Hmem.
    split; [exact Hmin | ]. split.
    + intros (v & Hin & Hlt).
      destruct Hmem as [[Hm _] | [_ Hall]]; [exact Hm | ].
      rewrite (Hall v Hin) in Hlt. discriminate.
    + intros Hall.
      destruct Hmem as [[Hm Hlt] | [Hinf _]]; [ | exact Hinf].
      rewrite (Hall _ Hm) in Hlt. discriminate.
  - intros Hz Hsome.
    rewrite (train_loop_nonempty F hp df merge_train_val log_wandb patience
               disk0 Hsome).
    cbv zeta. cbn [res world trace].
    replace (range_len (epochs hp)) with 0%nat by (unfold range_len; lia).
    split; reflexivity.
  - intros Hempty.
    rewrite (train_loop_empty F hp df merge_train_val log_wandb patience
               disk0 Hempty).
    split; reflexivity.
  - apply train_loop_returns.
Qed.

(* ===================================================================== *)
(** ** The order of the calls of one epoch *)
(* ===================================================================== *)

Section Order.

Variable F : Framework.






Lemma train_batch_not_sched (ev : Event F) :
  is_train_batch_event F ev = true -> is_sched_step F ev = false.
Proof. destruct ev; cbn; congruence. Qed.

Lemma validate_not_sched (ev : Event F) :
  is_validate_event F ev = true -> is_sched_step F ev = false.
Proof. destruct ev; cbn; congruence. Qed.


End Order.


(* ===================================================================== *)
(** ** Concrete runs *)
(* ===================================================================== *)

(** C3, as stated, fails: a run of one epoch whose validation loss is NaN
    returns infinity, which is not a validation loss it observed. *)
Lemma nan_loss_returns_unobserved_infinity :
  val_losses _ (trace Sim.nan_run) = [nan]
  /\ res Sim.nan_run = Ok inf
  /\ ~ returns_observed_minimum Sim.nan_run.
Proof.
  assert (Hv : val_losses _ (trace Sim.nan_run) = [nan])
    by (vm_compute; reflexivity).
  assert (Hr : res Sim.nan_run = Ok inf) by (vm_compute; reflexivity).
  split; [exact Hv | ]. split; [exact Hr | ].
  intros H. destruct (H inf Hr) as [Hin _].
  - rewrite Hv. discriminate.
  - rewrite Hv in Hin. destruct Hin as [Hin | []]. discriminate.
Qed.


(** C5, as stated, fails: a run of one epoch, its whole budget, that does
    not stop early logs that epoch. *)
Lemma last_epoch_of_budget_is_logged :
  res Sim.one_epoch_run = Ok (mkLoop (ratio 5 10) 0, Continue)
  /\ count _ (is_print_epoch _) (trace Sim.one_epoch_run) = 1%nat
  /\ count _ (is_log _) (trace Sim.one_epoch_run) = 1%nat
  /\ ~ last_epoch_not_logged 1 Sim.one_epoch_run.
Proof.
  assert (Hr : res Sim.one_epoch_run = Ok (mkLoop (ratio 5 10) 0, Continue))
    by (vm_compute; reflexivity).
  assert (Hl : count _ (is_log _) (trace Sim.one_epoch_run) = 1%nat)
    by (vm_compute; reflexivity).
  split; [exact Hr | ]. split; [vm_compute; reflexivity | ].
  split; [exact Hl | ].
  intros H. specialize (H _ Hr). rewrite Hl in H. lia.
Qed.

(** C6, as stated, fails: the batches with losses 2^53, 1, 1 and the same
    batches in the order 1, 1, 2^53 have means 3002399751580330.5 and
    3002399751580331.5. *)
Lemma mean_depends_on_batch_order :
  Permutation Sim.heavy_first Sim.heavy_last
  /\ batch_losses _ (trace Sim.pass_heavy_first) = Sim.heavy_first
  /\ batch_losses _ (trace Sim.pass_heavy_last) = Sim.heavy_last
  /\ res Sim.pass_heavy_first = Ok (S754_finite false 6004799503160661 (-1))
  /\ res Sim.pass_heavy_last = Ok (S754_finite false 6004799503160663 (-1))
  /\ ~ mean_order_invariant Sim.pass_heavy_first Sim.pass_heavy_last.
Proof.
  assert (Hp : Permutation Sim.heavy_first Sim.heavy_last).
  { unfold Sim.heavy_first, Sim.heavy_last.
    apply (Permutation_cons_append [of_int 1; of_int 1] (of_int (2 ^ 53))). }
  assert (H1 : batch_losses _ (trace Sim.pass_heavy_first) = Sim.heavy_first)
    by (vm_compute; reflexivity).
  assert (H2 : batch_losses _ (trace Sim.pass_heavy_last) = Sim.heavy_last)
    by (vm_compute; reflexivity).
  assert (R1 : res Sim.pass_heavy_first
               = Ok (S754_finite false 6004799503160661 (-1)))
    by (vm_compute; reflexivity).
  assert (R2 : res Sim.pass_heavy_last
               = Ok (S754_finite false 6004799503160663 (-1)))
    by (vm_compute; reflexivity).
  repeat (split; [assumption | ]).
  intros H. unfold mean_order_invariant in H.
  rewrite H1, H2, R1, R2 in H. specialize (H Hp). discriminate.
Qed.


(** The same epoch resets the counter and does not break; the scenario,
    with patience 2, breaks with the counter at 2. *)
Lemma patience_counter_policy_witness :
  (1 <= 2)
  /\ res (epochs_loop (Sim.framework Sim.scenario_vals) (Sim.hyper 5)
            Sim.ones Sim.zeros true 2 5 0%nat init_state
            (init_world (Sim.framework Sim.scenario_vals) (Sim.hyper 5) None))
     = Ok (mkLoop (ratio 5 10) 2, Break)
  /\ patience_counter (mkLoop (ratio 5 10) 2) = 2
  /\ (1 <= count _ (is_print_epoch _)
             (trace (epochs_loop (Sim.framework Sim.scenario_vals)
                       (Sim.hyper 5) Sim.ones Sim.zeros true 2 5 0%nat
                       init_state
                       (init_world (Sim.framework Sim.scenario_vals)
                                   (Sim.hyper 5) None))) <= 5)%nat.
Proof.
  assert (H1 : 1 <= 2) by lia.
  assert (Hr : res (epochs_loop (Sim.framework Sim.scenario_vals)
                      (Sim.hyper 5) Sim.ones Sim.zeros true 2 5 0%nat
                      init_state
                      (init_world (Sim.framework Sim.scenario_vals)
                                  (Sim.hyper 5) None))
               = Ok (mkLoop (ratio 5 10) 2, Break))
    by (vm_compute; reflexivity).
  pose proof (proj1 (proj2 (proj2 (patience_counter_policy
                (Sim.framework Sim.scenario_vals) (Sim.hyper 5) Sim.ones
                Sim.zeros true 2)))
              5%nat _ _ _ H1 Hr) as H.
  cbv beta iota zeta in H. destruct H as [Hc He].
  split; [exact H1 | ]. split; [exact Hr | ]. split; [exact Hc | exact He].
Defined.

(** The scenario has batches at every pass, returns, and returns one of
    its validation losses.  With a budget of 0 epochs the same frame gives
    infinity, and the frame without a training row gives [ValueError]. *)
Lemma train_loop_returns_least_loss_witness :
  (forall k, shuffled (Sim.framework Sim.scenario_vals) (Sim.hyper 5)
               (fst (split_frames false Sim.frame)) k <> [])
  /\ batches (Sim.framework Sim.scenario_vals) (Sim.hyper 5)
       (snd (split_frames false Sim.frame)) <> []
  /\ (exists r, res Sim.scenario = Ok r)
  /\ res Sim.scenario = Ok (ratio 5 10)
  /\ (forall v, In v (val_losses _ (trace Sim.scenario)) ->
                ltb v (ratio 5 10) = false)
  /\ epochs (Sim.hyper 0) <= 0
  /\ shuffled (Sim.framework Sim.scenario_vals) (Sim.hyper 0)
       (fst (split_frames false Sim.frame)) 0%nat <> []
  /\ res (train_loop (Sim.framework Sim.scenario_vals) (Sim.hyper 0)
            Sim.frame false true 2 None) = Ok inf
  /\ shuffled (Sim.framework Sim.scenario_vals) (Sim.hyper 5)
       (fst (split_frames false Sim.frame_without_train)) 0%nat = []
  /\ res (train_loop (Sim.framework Sim.scenario_vals) (Sim.hyper 5)
            Sim.frame_without_train false true 2 None) = Raise ValueError.
Proof.
  unfold Sim.scenario.
  assert (Hz : epochs (Sim.hyper 0) <= 0) by (cbn; lia).
  assert (Hs : shuffled (Sim.framework Sim.scenario_vals) (Sim.hyper 0)
                 (fst (split_frames false Sim.frame)) 0%nat <> [])
    by discriminate.
  assert (He : shuffled (Sim.framework Sim.scenario_vals) (Sim.hyper 5)
                 (fst (split_frames false Sim.frame_without_train)) 0%nat
               = []) by reflexivity.
  destruct (train_loop_returns_least_loss (Sim.framework Sim.scenario_vals)
              (Sim.hyper 0) Sim.frame false true 2 None)
    as (_ & Hzero & _).
  destruct (train_loop_returns_least_loss (Sim.framework Sim.scenario_vals)
              (Sim.hyper 5) Sim.frame_without_train false true 2 None)
    as (_ & _ & Hnone & _).
  assert (Ht : forall k, shuffled (Sim.framework Sim.scenario_vals)
                           (Sim.hyper 5)
                           (fst (split_frames false Sim.frame)) k <> [])
    by (intros k; discriminate).
  assert (Hv : batches (Sim.framework Sim.scenario_vals) (Sim.hyper 5)
                 (snd (split_frames false Sim.frame)) <> [])
    by discriminate.
  assert (Hr : res (train_loop (Sim.framework Sim.scenario_vals)
                      (Sim.hyper 5) Sim.frame false true 2 None)
               = Ok (ratio 5 10)) by (vm_compute; reflexivity).
  destruct (train_loop_returns_least_loss (Sim.framework Sim.scenario_vals)
              (Sim.hyper 5) Sim.frame false true 2 None)
    as (Hmin & _ & _ & Hret).
  split; [exact Ht | ]. split; [exact Hv | ].
  split; [exact (Hret Ht Hv) | ]. split; [exact Hr | ].
  split; [exact (proj1 (Hmin (ratio 5 10) Hr)) | ].
  split; [exact Hz | ]. split; [exact Hs | ].
  split; [exact (proj1 (Hzero Hz Hs)) | ].
  split; [exact He | exact (proj1 (Hnone He))].
Defined.


(** The one-epoch run exhausts its budget and logs its epoch. *)
Lemma logging_skipped_only_on_break_witness :
  res (epochs_loop (Sim.framework [ratio 5 10]) (Sim.hyper 1) Sim.ones
         Sim.zeros true 10 1 0%nat init_state (Sim.start [ratio 5 10]))
  = Ok (mkLoop (ratio 5 10) 0, Continue)
  /\ true = true
  /\ count _ (is_log _)
       (trace (epochs_loop (Sim.framework [ratio 5 10]) (Sim.hyper 1)
                 Sim.ones Sim.zeros true 10 1 0%nat init_state
                 (Sim.start [ratio 5 10]))) = 1%nat.
Proof.
  assert (Hr : res (epochs_loop (Sim.framework [ratio 5 10]) (Sim.hyper 1)
                      Sim.ones Sim.zeros true 10 1 0%nat init_state
                      (Sim.start [ratio 5 10]))
               = Ok (mkLoop (ratio 5 10) 0, Continue))
    by (vm_compute; reflexivity).
  destruct (proj2 (proj2 (logging_skipped_only_on_break
                            (Sim.framework [ratio 5 10]) (Sim.hyper 1)
                            Sim.ones Sim.zeros true 10))
              1%nat 0%nat init_state (Sim.start [ratio 5 10]) _ Hr eq_refl)
    as [_ Hl].
  split; [exact Hr | ]. split; [reflexivity | exact Hl].
Defined.

(** The pass over the batches 2^53, 1, 1 returns their running sum over 3. *)
Lemma train_returns_mean_witness :
  Sim.heavy_first <> []
  /\ res Sim.pass_heavy_first
     = Ok (div (fold_left add (batch_losses _ (trace Sim.pass_heavy_first))
                          zero)
               (of_int (Z.of_nat (length Sim.heavy_first)))).
Proof.
  unfold Sim.pass_heavy_first.
  assert (H : Sim.heavy_first <> []) by discriminate.
  split; [exact H | ].
  exact (proj2 (proj2 (train_returns_mean (Sim.framework []) (Sim.hyper 1)
                         Sim.heavy_first (Sim.start []))) H).
Defined.

(** The scenario with logging off returns. *)
Lemma logging_flag_is_inert_witness :
  (forall k, shuffled (Sim.framework Sim.scenario_vals) (Sim.hyper 5)
               (fst (split_frames false Sim.frame)) k <> [])
  /\ batches (Sim.framework Sim.scenario_vals) (Sim.hyper 5)
       (snd (split_frames false Sim.frame)) <> []
  /\ exists r,
       res (train_loop (Sim.framework Sim.scenario_vals) (Sim.hyper 5)
              Sim.frame false false 2 None) = Ok r.
Proof.
  assert (Ht : forall k, shuffled (Sim.framework Sim.scenario_vals)
                           (Sim.hyper 5)
                           (fst (split_frames false Sim.frame)) k <> [])
    by (intros k; discriminate).
  assert (Hv : batches (Sim.framework Sim.scenario_vals) (Sim.hyper 5)
                 (snd (split_frames false Sim.frame)) <> [])
    by discriminate.
  split; [exact Ht | ]. split; [exact Hv | ].
  exact (proj2 (proj2 (proj2 (proj2
           (logging_flag_is_inert (Sim.framework Sim.scenario_vals)
              (Sim.hyper 5) Sim.frame false 2 None)))) Ht Hv).
Defined.

(* ===================================================================== *)
(** ** Further properties *)
(* ===================================================================== *)

(** The scenario with epochs=3, patience=10 and validation losses
    0.5, 0.4, 0.6: the run goes through its three epochs, returns 0.4, and
    saves the checkpoint after the first and the second epoch and not after
    the third, so that the file holds the parameters of the second. *)
Example improving_scenario :
  val_losses _ (trace Sim.improving) = [ratio 5 10; ratio 4 10; ratio 6 10]
  /\ res Sim.improving = Ok (ratio 4 10)
  /\ saves_by_epoch _ (trace Sim.improving) = [true; true; false]
  /\ model_pth (world Sim.improving) = Some 2%nat.
Proof. repeat split; vm_compute; reflexivity. Qed.

(** X1. A run executes at most as many epochs as its budget, none when the
    budget is 0 or negative, and exactly its budget when it returns without
    an early stop. *)
Theorem epochs_within_budget (F : Framework) (hp : Hyper)
    (df : DataFrame (Payload F)) (merge_train_val log_wandb : bool)
    (patience : Z) (w : World F) :
  let o := run_epochs F hp df merge_train_val log_wandb patience w in
  forall st fl, res o = Ok (st, fl) ->
    (count F (is_print_epoch F) (trace o) <= range_len (epochs hp))%nat
    /\ (fl = Continue ->
        count F (is_print_epoch F) (trace o) = range_len (epochs hp)).
Proof.
  cbv zeta. intros st fl H.
  pose proof (run_epochs_ok_inv F hp df merge_train_val log_wandb patience
                w (st, fl) H) as Hsome.
  revert H.
  rewrite (run_epochs_nonempty F hp df merge_train_val log_wandb patience
             w Hsome).
  cbv zeta. cbn [res world trace]. intros H.
  pose proof (epochs_loop_executed F hp _ _ log_wandb patience _ _ _ _ _ _ H)
    as He.
  cbv zeta in He. unfold count in *. cbn [filter is_print_epoch].
  destruct fl.
  - split; [lia | intros _; exact He].
  - split; [lia | discriminate].
Qed.

(** The scenario of C2 returns after three of its five epochs. *)
Lemma epochs_within_budget_witness :
  res Sim.scenario_epochs = Ok (mkLoop (ratio 5 10) 2, Break)
  /\ (count _ (is_print_epoch _) (trace Sim.scenario_epochs)
      <= range_len (epochs (Sim.hyper 5)))%nat.
Proof.
  unfold Sim.scenario_epochs.
  assert (Hr : res (run_epochs (Sim.framework Sim.scenario_vals) (Sim.hyper 5)
                      Sim.frame false true 2
                      (init_world (Sim.framework Sim.scenario_vals)
                                  (Sim.hyper 5) None))
               = Ok (mkLoop (ratio 5 10) 2, Break))
    by (vm_compute; reflexivity).
  split; [exact Hr | ].
  exact (proj1 (epochs_within_budget (Sim.framework Sim.scenario_vals)
                  (Sim.hyper 5) Sim.frame false true 2
                  (init_world (Sim.framework Sim.scenario_vals)
                              (Sim.hyper 5) None)
                  (mkLoop (ratio 5 10) 2) Break Hr)).
Defined.

(* ===================================================================== *)
(** ** The training pass in closed form *)
(* ===================================================================== *)

Section PassFacts.

Variable F : Framework.
Variable hp : Hyper.

Lemma train_batches_closed (bs : list (Batch F)) :
  forall (total : float) (w : World F),
    training w = true ->
    let o := train_batches F hp bs total w in
    (parameters (world o), opt_state (world o))
    = fold_left (clipped_step F (lr w) (clip_grad hp)) bs
                (parameters w, opt_state w)
    /\ batch_losses F (trace o)
       = pass_losses F (lr w) (clip_grad hp) (parameters w, opt_state w) bs.
Proof.
  induction bs as [ | b bs IH]; intros total w Hm.
  - split; reflexivity.
  - cbn. rewrite Hm.
    match goal with
    | |- context [train_batches F hp bs ?t ?w1] =>
        destruct (IH t w1 eq_refl) as [IH1 IH2]
    end.
    cbv zeta in IH1, IH2. cbn [parameters opt_state lr] in IH1, IH2.
    unfold clipped_step at 1 3. cbn [fst snd].
    rewrite <- surjective_pairing in IH1, IH2.
    split; [exact IH1 | ].
    f_equal. exact IH2.
Qed.

Lemma train_sched (loader : list (Batch F)) (w : World F) :
  sched (world (train F hp loader w))
  = fst (scheduler_step F (sched w) (lr w)).
Proof.
  rewrite train_spec. cbn [world scheduled sched].
  destruct (train_batches_frame F hp loader zero (set_training true w))
    as (_ & H2 & H3 & _).
  cbn [set_training lr sched] in H2, H3. rewrite H2, H3. reflexivity.
Qed.

Lemma train_world_closed (loader : list (Batch F)) (w : World F) :
  (parameters (world (train F hp loader w)),
   opt_state (world (train F hp loader w)))
  = fold_left (clipped_step F (lr w) (clip_grad hp)) loader
              (parameters w, opt_state w).
Proof.
  destruct (train_batches_closed loader zero (set_training true w) eq_refl)
    as [H1 _].
  cbv zeta in H1. cbn [set_training parameters opt_state lr] in H1.
  rewrite train_spec. exact H1.
Qed.

Lemma train_count_sched (loader : list (Batch F)) (w : World F) :
  count F (is_sched_step F) (trace (train F hp loader w)) = 1%nat.
Proof.
  rewrite train_spec. cbn [trace].
  change (EvModelTrain :: ?t) with ([@EvModelTrain F] ++ t).
  rewrite !count_app.
  destruct (class_excludes F (is_train_batch_event F) (is_sched_step F) _
              (train_batch_not_sched F)
              (train_batches_class F hp loader zero (set_training true w)))
    as [_ C].
  rewrite C. reflexivity.
Qed.

Lemma train_count_opt (loader : list (Batch F)) (w : World F) :
  count F (is_opt_step F) (trace (train F hp loader w)) = length loader.
Proof.
  rewrite train_spec. cbn [trace].
  change (EvModelTrain :: ?t) with ([@EvModelTrain F] ++ t).
  rewrite !count_app, train_batches_opt_steps. cbn. lia.
Qed.

Lemma validate_count_zero (p : Event F -> bool) (loader : list (Batch F))
    (w : World F) :
  (forall ev, is_validate_event F ev = true -> p ev = false) ->
  count F p (trace (validate F loader w)) = 0%nat.
Proof.
  intros D.
  apply (class_excludes F (is_validate_event F) p _ D).
  apply validate_trace_class.
Qed.

Lemma validate_not_opt (ev : Event F) :
  is_validate_event F ev = true -> is_opt_step F ev = false.
Proof. destruct ev; cbn; congruence. Qed.

End PassFacts.

(** C10. Both [train] and [validate] raise [ZeroDivisionError] on a loader
    without batches; on a loader with at least one batch each returns the
    float sum of its per-batch losses divided by the number of batches,
    [train] over the losses taken while the parameters move, [validate] over
    the losses at the parameters it is given.  In a run, an empty training
    set never reaches [train]: the shuffling loader refuses it with a
    [ValueError] right after the setup calls.  With a training pass that has
    batches and a budget of at least one epoch, an empty validation loader
    aborts the run with [ZeroDivisionError]; the run returns when every pass
    has a batch. *)
Theorem loaders_must_have_batches (F : Framework) (hp : Hyper) :
  (forall w, res (train F hp [] w) = Raise ZeroDivisionError
             /\ res (validate F [] w) = Raise ZeroDivisionError)
  /\ (forall w loader, loader <> [] ->
        res (train F hp loader w)
        = Ok (div (fold_left add
                     (pass_losses F (lr w) (clip_grad hp)
                                  (parameters w, opt_state w) loader) zero)
                  (of_int (Z.of_nat (length loader))))
        /\ res (validate F loader w)
           = Ok (div (fold_left add
                        (map (model_loss F false (parameters w)) loader) zero)
                     (of_int (Z.of_nat (length loader)))))
  /\ (forall df merge_train_val log_wandb patience disk0,
        shuffled F hp (fst (split_frames merge_train_val df)) 0%nat = [] ->
        let o := train_loop F hp df merge_train_val log_wandb patience disk0 in
        res o = Raise ValueError
        /\ trace o = [EvSeed 42; EvMakedirs; EvPickleDump hp]
        /\ model_pth (world o) = disk0)
  /\ (forall df merge_train_val log_wandb patience disk0,
        0 < epochs hp ->
        shuffled F hp (fst (split_frames merge_train_val df)) 0%nat <> [] ->
        batches F hp (snd (split_frames merge_train_val df)) = [] ->
        res (train_loop F hp df merge_train_val log_wandb patience disk0)
        = Raise ZeroDivisionError)
  /\ (forall df merge_train_val log_wandb patience disk0,
        (forall k, shuffled F hp (fst (split_frames merge_train_val df)) k
                   <> []) ->
        batches F hp (snd (split_frames merge_train_val df)) <> [] ->
        exists r,
          res (train_loop F hp df merge_train_val log_wandb patience disk0)
          = Ok r).
Proof.
  split; [ | split; [ | split; [ | split]]].
  - intros w. split.
    + rewrite train_spec. reflexivity.
    + rewrite validate_spec. reflexivity.
  - intros w loader H.
    destruct loader as [ | b bs]; [congruence | ].
    split.
    + destruct (train_batches_closed F hp (b :: bs) zero
                  (set_training true w) eq_refl) as [_ Hl].
      cbv zeta in Hl. cbn [set_training parameters opt_state lr] in Hl.
      rewrite train_spec. cbv zeta. cbn [res]. rewrite Hl.
      cbn [length]. apply truediv_pos.
    + rewrite validate_spec. cbn [res length]. apply truediv_pos.
  - intros df merge log patience disk0 Hempty. cbv zeta.
    rewrite train_loop_spec. cbv zeta.
    rewrite (run_epochs_empty F hp df merge log patience _ Hempty).
    cbn [res world trace].
    split; [reflexivity | split; reflexivity].
  - intros df merge log patience disk0 Hpos Ht Hv.
    rewrite train_loop_spec. cbv zeta.
    rewrite (run_epochs_nonempty F hp df merge log patience _ Ht).
    cbn [res world trace].
    destruct (range_len (epochs hp)) as [ | n] eqn:En;
      [unfold range_len in En; lia | ].
    rewrite epochs_loop_S. cbv zeta. rewrite epoch_body_unfold. cbv zeta.
    destruct (train_returns F hp
                (shuffled F hp (fst (split_frames merge df)) 0%nat)
                (init_world F hp disk0) Ht) as [tl ->].
    rewrite Hv, validate_spec. cbn [res length Z.of_nat]. reflexivity.
  - intros df merge log patience disk0 Ht Hv.
    rewrite train_loop_spec. cbv zeta.
    rewrite (run_epochs_nonempty F hp df merge log patience _ (Ht 0%nat)).
    cbn [res world trace].
    destruct (epochs_loop_returns F hp _ _ log patience
                (range_len (epochs hp)) Ht Hv 0%nat init_state
                (init_world F hp disk0)) as [sf ->].
    eauto.
Qed.

(** A pass over three batches returns their float sum over 3; the frame
    without a training row stops the run with [ValueError]; the frame
    without a validation row aborts it with [ZeroDivisionError] after the
    first training pass. *)
Lemma loaders_must_have_batches_witness :
  Sim.heavy_first <> []
  /\ res (train (Sim.framework []) (Sim.hyper 1) Sim.heavy_first
            (Sim.start []))
     = Ok (div (fold_left add
                  (pass_losses (Sim.framework [])
                     (lr (Sim.start [])) (clip_grad (Sim.hyper 1))
                     (parameters (Sim.start []), opt_state (Sim.start []))
                     Sim.heavy_first) zero)
               (of_int (Z.of_nat (length Sim.heavy_first))))
  /\ shuffled (Sim.framework []) (Sim.hyper 1)
       (fst (split_frames false Sim.frame_without_train)) 0%nat = []
  /\ res (train_loop (Sim.framework []) (Sim.hyper 1)
            Sim.frame_without_train false true 10 None)
     = Raise ValueError
  /\ 0 < epochs (Sim.hyper 1)
  /\ shuffled (Sim.framework []) (Sim.hyper 1)
       (fst (split_frames false Cases.frame_without_val)) 0%nat <> []
  /\ batches (Sim.framework []) (Sim.hyper 1)
       (snd (split_frames false Cases.frame_without_val)) = []
  /\ res (train_loop (Sim.framework []) (Sim.hyper 1)
            Cases.frame_without_val false true 10 None)
     = Raise ZeroDivisionError.
Proof.
  assert (H1 : 0 < epochs (Sim.hyper 1)) by (cbn; lia).
  assert (H2 : shuffled (Sim.framework []) (Sim.hyper 1)
                 (fst (split_frames false Sim.frame_without_train)) 0%nat
               = []) by reflexivity.
  assert (H3 : Sim.heavy_first <> []) by discriminate.
  assert (H4 : shuffled (Sim.framework []) (Sim.hyper 1)
                 (fst (split_frames false Cases.frame_without_val)) 0%nat
               <> []) by discriminate.
  assert (H5 : batches (Sim.framework []) (Sim.hyper 1)
                 (snd (split_frames false Cases.frame_without_val)) = [])
    by reflexivity.
  destruct (loaders_must_have_batches (Sim.framework []) (Sim.hyper 1))
    as (_ & Hret & Hvalue & Habort & _).
  split; [exact H3 | ].
  split; [exact (proj1 (Hret (Sim.start []) Sim.heavy_first H3)) | ].
  split; [exact H2 | ].
  split; [exact (proj1 (Hvalue Sim.frame_without_train false true 10 None
                          H2)) | ].
  split; [exact H1 | ]. split; [exact H4 | ]. split; [exact H5 | ].
  exact (Habort Cases.frame_without_val false true 10 None H1 H4 H5).
Defined.

(** X2. A training pass is a fold over its batches: each batch contributes
    one optimizer update made with the gradient of that batch alone (the
    buffers are zeroed first), clipped to [clip_grad], and every update of
    the pass uses the learning rate the pass started with, the scheduler
    stepping once after the last batch.  The loss of each batch is taken in
    training mode at the parameters left by the batches before it.  Neither
    the mode nor the gradient buffers the pass finds on entry matter. *)
Theorem train_is_fold_of_clipped_steps (F : Framework) (hp : Hyper)
    (train_loader : list (Batch F)) (w : World F) :
  let o := train F hp train_loader w in
  let po := (parameters w, opt_state w) in
  let losses := pass_losses F (lr w) (clip_grad hp) po train_loader in
  (parameters (world o), opt_state (world o))
  = fold_left (clipped_step F (lr w) (clip_grad hp)) train_loader po
  /\ batch_losses F (trace o) = losses
  /\ res o = truediv (fold_left add losses zero)
                     (Z.of_nat (length train_loader))
  /\ (sched (world o), lr (world o)) = scheduler_step F (sched w) (lr w)
  /\ training (world o) = true
  /\ model_pth (world o) = model_pth w.
Proof.
  cbv zeta.
  destruct (train_batches_closed F hp train_loader zero (set_training true w)
              eq_refl) as [H1 H2].
  cbv zeta in H1, H2. cbn [set_training parameters opt_state lr] in H1, H2.
  pose proof (batch_losses_train F hp train_loader w) as Hb.
  pose proof (train_lr F hp train_loader w) as Hlr.
  pose proof (train_sched F hp train_loader w) as Hs.
  pose proof (train_model_pth F hp train_loader w) as Hp.
  destruct (train_batches_frame F hp train_loader zero (set_training true w))
    as (Hm & _).
  split; [ | split; [ | split; [ | split; [ | split]]]].
  - apply train_world_closed.
  - rewrite Hb. exact H2.
  - rewrite <- H2. rewrite train_spec. reflexivity.
  - rewrite Hlr, Hs. symmetry. apply surjective_pairing.
  - rewrite train_spec. exact Hm.
  - exact Hp.
Qed.

(** X3. A run on a training set with samples whose validation loader is
    empty aborts with [ZeroDivisionError] in its first epoch, and only after
    the training pass has run: the scheduler has stepped once and the model
    has taken one update per training batch, while nothing has been printed
    for the epoch, no checkpoint has been written and nothing has been
    logged. *)
Theorem abort_after_training_pass (F : Framework) (hp : Hyper)
    (df : DataFrame (Payload F)) (merge_train_val log_wandb : bool)
    (patience : Z) (disk0 : option (Params F)) :
  0 < epochs hp ->
  let frames := split_frames merge_train_val df in
  let first_pass := shuffled F hp (fst frames) 0%nat in
  first_pass <> [] ->
  batches F hp (snd frames) = [] ->
  let o := train_loop F hp df merge_train_val log_wandb patience disk0 in
  res o = Raise ZeroDivisionError
  /\ count F (is_print_epoch F) (trace o) = 0%nat
  /\ count F (is_save F) (trace o) = 0%nat
  /\ count F (is_log F) (trace o) = 0%nat
  /\ model_pth (world o) = disk0
  /\ count F (is_sched_step F) (trace o) = 1%nat
  /\ count F (is_opt_step F) (trace o) = length first_pass
  /\ (parameters (world o), opt_state (world o))
     = fold_left (clipped_step F (hp_lr hp) (clip_grad hp)) first_pass
                 (build_model F hp, optimizer_init F hp (build_model F hp)).
Proof.
  intros Hpos frames first_pass Hsome Hempty. cbv zeta.
  rewrite (train_loop_nonempty F hp df merge_train_val log_wandb patience
             disk0 Hsome).
  cbv zeta. fold frames. cbn [res world trace].
  destruct (range_len (epochs hp)) as [ | n] eqn:En;
    [unfold range_len in En; lia | ].
  rewrite epochs_loop_S. cbv zeta. rewrite epoch_body_unfold. cbv zeta.
  fold first_pass.
  set (w0 := init_world F hp disk0).
  pose proof (train_world_closed F hp first_pass w0) as Hpo.
  pose proof (train_model_pth F hp first_pass w0) as Hpth.
  cbn [w0 init_world lr parameters opt_state model_pth] in Hpo, Hpth.
  fold w0 in Hpo, Hpth.
  pose proof (train_count_sched F hp first_pass w0) as Cs.
  pose proof (train_count_opt F hp first_pass w0) as Co.
  pose proof (class_excludes F (is_pass_event F) (is_print_epoch F) _
                (pass_not_print F)
                (train_trace_class F hp first_pass w0)) as [_ Cp].
  pose proof (class_excludes F (is_pass_event F) (is_save F) _
                (pass_not_save F)
                (train_trace_class F hp first_pass w0)) as [_ Csv].
  pose proof (class_excludes F (is_pass_event F) (is_log F) _
                (pass_not_log F)
                (train_trace_class F hp first_pass w0)) as [_ Cl].
  assert (setup : forall p t,
             p (@EvSeed F 42) = false -> p (@EvMakedirs F) = false ->
             p (@EvPickleDump F hp) = false ->
             count F p (EvSeed 42 :: EvMakedirs :: EvPickleDump hp :: t)
             = count F p t).
  { intros p t E1 E2 E3. unfold count. cbn [filter]. rewrite E1, E2, E3.
    reflexivity. }
  destruct (train_returns F hp first_pass w0 Hsome) as [tl Et].
  rewrite Et.
  fold frames in Hempty |- *. rewrite Hempty.
  rewrite validate_spec. cbn [res world trace length Z.of_nat].
  change (truediv _ 0) with (@Raise float ZeroDivisionError).
  cbn [res world trace set_training parameters opt_state model_pth
       flat_map].
  rewrite !setup by reflexivity. rewrite !count_app, Cp, Csv, Cl, Cs, Co.
  do 7 (split; [first [reflexivity | exact Hpth
                       | unfold count; cbn [filter length is_print_epoch
                           is_save is_log is_sched_step is_opt_step]; lia]
               | ]).
  exact Hpo.
Qed.

(* ===================================================================== *)
(** ** What a run reports *)
(* ===================================================================== *)

Section Reports.

Variable F : Framework.
Variable hp : Hyper.
Variable train_loader : nat -> list (Batch F).
Variable val_loader : list (Batch F).
Variable log_wandb : bool.
Variable patience : Z.

Local Abbreviation epoch_body' :=
  (epoch_body F hp train_loader val_loader log_wandb patience).
Local Abbreviation epochs_loop' :=
  (epochs_loop F hp train_loader val_loader log_wandb patience).

(** Events of the two passes contribute nothing to a reading of the trace
    that only looks at the calls made after them. *)
Lemma passes_unread {A : Type} (f : Event F -> list A) (l1 l2 : list (Batch F))
    (w1 w2 : World F) :
  (forall ev, is_pass_event F ev = true -> f ev = []) ->
  flat_map f (trace (train F hp l1 w1) ++ trace (validate F l2 w2)) = [].
Proof.
  intros D.
  assert (G : forall t, forallb (is_pass_event F) t = true ->
                        flat_map f t = []).
  { induction t as [ | ev t IH]; cbn; intros H; [reflexivity | ].
    apply andb_prop in H. destruct H as [H1 H2].
    rewrite (D ev H1), (IH H2). reflexivity. }
  apply G. rewrite forallb_app. apply andb_true_intro. split.
  - apply train_trace_class.
  - apply validate_pass_class.
Qed.

(** The line an iteration prints, the scheduler steps it makes and the
    schedule it leaves. *)
Lemma epoch_body_schedule (epoch : nat) (st st1 : LoopState) (fl : Flow)
    (w : World F) :
  res (epoch_body' epoch st w) = Ok (st1, fl) ->
  let o := epoch_body' epoch st w in
  printed_epochs F (trace o)
  = [(Z.of_nat epoch + 1, snd (scheduler_step F (sched w) (lr w)))]
  /\ count F (is_sched_step F) (trace o) = 1%nat
  /\ (sched (world o), lr (world o)) = scheduler_step F (sched w) (lr w).
Proof.
  intros E. cbv zeta.
  destruct (epoch_body_inv F hp train_loader val_loader log_wandb patience
              epoch st st1 fl w E)
    as (tl & vl & _ & _ & _ & _ & Hw & Htr).
  cbv zeta in Hw, Htr.
  assert (Hlr : lr (world (validate F val_loader (world (train F hp (train_loader epoch) w))))
                = snd (scheduler_step F (sched w) (lr w))).
  { rewrite validate_spec. cbn [world set_training lr]. apply train_lr. }
  assert (Hsc : sched (world (validate F val_loader (world (train F hp (train_loader epoch) w))))
                = fst (scheduler_step F (sched w) (lr w))).
  { rewrite validate_spec. cbn [world set_training sched]. apply train_sched. }
  rewrite Htr, Hw. split; [ | split].
  - unfold printed_epochs. rewrite flat_map_app.
    rewrite (passes_unread _ _ _ _ _) by (intros ev; destruct ev; cbn;
                                          congruence).
    rewrite Hlr. cbn [flat_map app].
    destruct (ltb vl (best_val_loss st)), (patience <=? patience_counter st1),
      log_wandb; reflexivity.
  - rewrite !count_app.
    rewrite train_count_sched.
    rewrite (validate_count_zero F _ _ _ (validate_not_sched F)).
    unfold count.
    destruct (ltb vl (best_val_loss st)), (patience <=? patience_counter st1),
      log_wandb; reflexivity.
  - rewrite (surjective_pairing (scheduler_step F (sched w) (lr w))).
    rewrite <- Hlr, <- Hsc.
    destruct (ltb vl (best_val_loss st)); reflexivity.
Qed.

(** The lines of a loop that returns are numbered consecutively, the line
    of the [i]-th epoch run carrying the learning rate after [i] steps of
    the scheduler. *)
Lemma epochs_loop_schedule (n : nat) :
  forall epoch st w st' fl,
    res (epochs_loop' n epoch st w) = Ok (st', fl) ->
    let o := epochs_loop' n epoch st w in
    let k := count F (is_print_epoch F) (trace o) in
    printed_epochs F (trace o)
    = map (fun i => (Z.of_nat (epoch + i) + 1,
                     snd (sched_iter F (S i) (sched w, lr w))))
          (seq 0 k)
    /\ count F (is_sched_step F) (trace o) = k
    /\ (sched (world o), lr (world o)) = sched_iter F k (sched w, lr w).
Proof.
  induction n as [ | n IH]; intros epoch st w st' fl H; cbv zeta.
  - cbn in *. repeat split.
  - rewrite epochs_loop_S in *. cbv zeta in *.
    destruct (res (epoch_body' epoch st w)) as [[st1 fl1] | e] eqn:E;
      [ | destruct e; discriminate].
    destruct (epoch_body_schedule epoch st st1 fl1 w E) as (Hp & Hs & Hw).
    destruct (epoch_body_counts F hp train_loader val_loader log_wandb
                patience epoch st st1 fl1 w E) as (Hc & _).
    cbv zeta in Hp, Hs, Hw, Hc.
    destruct fl1; cbn [res world trace] in *.
    + specialize (IH _ _ _ _ _ H). cbv zeta in IH.
      destruct IH as (IHp & IHs & IHw).
      unfold printed_epochs in *. rewrite flat_map_app, Hp, IHp.
      rewrite !count_app, Hc, Hs, IHs, IHw, Hw.
      set (k := count F (is_print_epoch F) _).
      split; [ | split; reflexivity].
      cbn [Nat.add seq map app]. rewrite Nat.add_0_r. f_equal.
      rewrite <- seq_shift, map_map. apply map_ext. intros i.
      rewrite Nat.add_succ_r. reflexivity.
    + rewrite Hp, Hc, Hs, Hw. cbn [seq map]. rewrite Nat.add_0_r.
      repeat split.
Qed.

End Reports.

(** X4. In a run that returns, the epoch lines printed are numbered 1, 2,
    ..., one per epoch run, and the learning rate on the line of epoch [i]
    is the rate after [i] steps of the scheduler from the configured rate:
    the configured rate itself, at which the first epoch trains, is never
    reported.  The scheduler has stepped once per epoch run and the
    optimizer is left with the rate of the last line. *)
Theorem reported_learning_rates (F : Framework) (hp : Hyper)
    (df : DataFrame (Payload F)) (merge_train_val log_wandb : bool)
    (patience : Z) (disk0 : option (Params F)) (r : float) :
  let o := train_loop F hp df merge_train_val log_wandb patience disk0 in
  res o = Ok r ->
  let k := count F (is_print_epoch F) (trace o) in
  let rate i := snd (sched_iter F i (scheduler_init F hp, hp_lr hp)) in
  printed_epochs F (trace o)
  = map (fun i => (Z.of_nat i + 1, rate (S i))) (seq 0 k)
  /\ count F (is_sched_step F) (trace o) = k
  /\ lr (world o) = rate k.
Proof.
  cbv zeta. intros Hok.
  pose proof (train_loop_ok_inv F hp df merge_train_val log_wandb patience
                disk0 r Hok) as Hsome.
  revert Hok.
  rewrite (train_loop_nonempty F hp df merge_train_val log_wandb patience
             disk0 Hsome).
  cbv zeta. cbn [res world trace].
  set (o := epochs_loop F hp _ _ log_wandb patience _ 0%nat init_state _).
  destruct (res o) as [[st fl] | e] eqn:E; [ | discriminate].
  intros _.
  destruct (epochs_loop_schedule F hp _ _ log_wandb patience _ _ _ _ _ _ E)
    as (Hp & Hs & Hw).
  fold o in Hp, Hs, Hw. cbn [init_world sched lr] in Hp, Hs, Hw.
  change (printed_epochs F (EvSeed 42 :: EvMakedirs :: EvPickleDump hp
                            :: trace o))
    with (printed_epochs F (trace o)).
  change (count F (is_print_epoch F)
            (EvSeed 42 :: EvMakedirs :: EvPickleDump hp :: trace o))
    with (count F (is_print_epoch F) (trace o)).
  change (count F (is_sched_step F)
            (EvSeed 42 :: EvMakedirs :: EvPickleDump hp :: trace o))
    with (count F (is_sched_step F) (trace o)).
  split; [exact Hp | ]. split; [exact Hs | ].
  rewrite <- Hw. reflexivity.
Qed.

Lemma not_above_trans (x y z : float) :
  not_above x y -> not_above y z -> not_above x z.
Proof.
  intros [-> | H1] [-> | H2].
  - left. reflexivity.
  - right. exact H2.
  - right. exact H1.
  - right. exact (ltb_trans x y z H1 H2).
Qed.

Section Records.

Variable F : Framework.
Variable hp : Hyper.
Variable train_loader : nat -> list (Batch F).
Variable val_loader : list (Batch F).
Variable log_wandb : bool.
Variable patience : Z.

Local Abbreviation epoch_body' :=
  (epoch_body F hp train_loader val_loader log_wandb patience).
Local Abbreviation epochs_loop' :=
  (epochs_loop F hp train_loader val_loader log_wandb patience).

Lemma pass_events_unread {A : Type} (f : Event F -> list A)
    (t : list (Event F)) :
  (forall ev, is_pass_event F ev = true -> f ev = []) ->
  forallb (is_pass_event F) t = true -> flat_map f t = [].
Proof.
  intros D. induction t as [ | ev t IH]; cbn; intros H; [reflexivity | ].
  apply andb_prop in H. destruct H as [H1 H2].
  rewrite (D ev H1), (IH H2). reflexivity.
Qed.

Lemma pass_not_logged (ev : Event F) :
  is_pass_event F ev = true ->
  match ev with EvLog _ v b _ => [(v, b)] | _ => [] end = [].
Proof. destruct ev; cbn; congruence. Qed.

(** The record an iteration logs, if it logs one: its best loss is that of
    the state it leaves, which is not above its validation loss; and the
    best loss an iteration leaves is not above the one it found. *)
Lemma epoch_body_logged (epoch : nat) (st : LoopState) (w : World F) :
  let o := epoch_body' epoch st w in
  (logged F (trace o) = []
   \/ exists vl st1,
        res o = Ok (st1, Continue)
        /\ logged F (trace o) = [(vl, best_val_loss st1)]
        /\ ltb vl (best_val_loss st1) = false)
  /\ (forall st1 fl, res o = Ok (st1, fl) ->
        not_above (best_val_loss st1) (best_val_loss st)).
Proof.
  cbv zeta. rewrite epoch_body_unfold. cbv zeta.
  pose proof (train_trace_class F hp (train_loader epoch) w) as Ct.
  pose proof (validate_pass_class F val_loader
                (world (train F hp (train_loader epoch) w))) as Cv.
  destruct (res (train F hp (train_loader epoch) w)) as [tl | e].
  - destruct (res (validate F val_loader
                     (world (train F hp (train_loader epoch) w))))
      as [vl | e]; cbn [res world trace].
    + unfold logged. rewrite !flat_map_app.
      rewrite (pass_events_unread _ _ pass_not_logged Ct).
      rewrite (pass_events_unread _ _ pass_not_logged Cv).
      destruct (ltb vl (best_val_loss st)) eqn:Himp;
        cbn [best_val_loss patience_counter];
        destruct (patience <=? _); destruct log_wandb; cbn [flat_map app];
        (split;
         [ first [ left; reflexivity
                 | right; eexists; eexists;
                   split; [reflexivity | ];
                   split; [reflexivity | ];
                   cbn [best_val_loss];
                   first [apply ltb_irrefl | exact Himp] ]
         | intros st1 fl H; injection H as <- _; cbn [best_val_loss];
           first [right; exact Himp | left; reflexivity] ]).
    + split; [ | intros st1 fl H; discriminate].
      left. unfold logged. rewrite flat_map_app.
      rewrite (pass_events_unread _ _ pass_not_logged Ct).
      rewrite (pass_events_unread _ _ pass_not_logged Cv). reflexivity.
  - cbn [res world trace]. split; [ | intros st1 fl H; discriminate].
    left. apply (pass_events_unread _ _ pass_not_logged Ct).
Qed.

(** Whatever its outcome, the loop logs records whose best losses never go
    up, none above the best loss the loop started with, and each not above
    the validation loss of its record. *)
Lemma epochs_loop_logged (n : nat) :
  forall epoch st w,
    let l := logged F (trace (epochs_loop' n epoch st w)) in
    StronglySorted (fun x y => not_above (snd y) (snd x)) l
    /\ Forall (fun x => not_above (snd x) (best_val_loss st)
                        /\ ltb (fst x) (snd x) = false) l.
Proof.
  induction n as [ | n IH]; intros epoch st w; cbv zeta.
  - cbn. split; constructor.
  - rewrite epochs_loop_S. cbv zeta.
    destruct (epoch_body_logged epoch st w) as [Hl Hb]. cbv zeta in Hl, Hb.
    destruct (res (epoch_body' epoch st w)) as [[st1 [ | ]] | e] eqn:E;
      cbn [res world trace].
    + destruct (IH (S epoch) st1 (world (epoch_body' epoch st w)))
        as [IHs IHf].
      specialize (Hb st1 Continue eq_refl).
      assert (IHf' : Forall (fun x => not_above (snd x) (best_val_loss st)
                                      /\ ltb (fst x) (snd x) = false)
                       (logged F (trace (epochs_loop' n (S epoch) st1
                                  (world (epoch_body' epoch st w)))))).
      { eapply Forall_impl; [ | exact IHf].
        intros x [H1 H2]. split; [ | exact H2].
        exact (not_above_trans _ _ _ H1 Hb). }
      unfold logged in *. rewrite flat_map_app.
      destruct Hl as [-> | (vl & st2 & Hr & -> & Hv)].
      * split; assumption.
      * injection Hr as <-. cbn [app]. split.
        -- constructor; [exact IHs | ].
           eapply Forall_impl; [ | exact IHf].
           intros x [H1 _]. exact H1.
        -- constructor; [ | exact IHf'].
           split; [exact Hb | exact Hv].
    + destruct Hl as [-> | (vl & st2 & Hr & _)]; [ | discriminate].
      split; constructor.
    + destruct Hl as [-> | (vl & st2 & Hr & _)]; [ | discriminate].
      split; constructor.
Qed.

End Records.

(** X5. Whatever the outcome of a run, the [best_val_loss] of the records
    it logs never goes up from one record to a later one (it stays or goes
    strictly down), and in no record is the [val_loss] strictly below the
    [best_val_loss] logged with it. *)
Theorem logged_best_never_rises (F : Framework) (hp : Hyper)
    (df : DataFrame (Payload F)) (merge_train_val log_wandb : bool)
    (patience : Z) (disk0 : option (Params F)) :
  let o := train_loop F hp df merge_train_val log_wandb patience disk0 in
  StronglySorted (fun x y => not_above (snd y) (snd x)) (logged F (trace o))
  /\ Forall (fun x => ltb (fst x) (snd x) = false) (logged F (trace o)).
Proof.
  cbv zeta.
  destruct (nil_or_not
              (shuffled F hp (fst (split_frames merge_train_val df)) 0%nat))
    as [Hempty | Hsome].
  { rewrite (train_loop_empty F hp df merge_train_val log_wandb patience
               disk0 Hempty).
    cbn [trace logged flat_map app].
    split; constructor. }
  rewrite (train_loop_nonempty F hp df merge_train_val log_wandb patience
             disk0 Hsome).
  cbv zeta. cbn [res world trace].
  change (logged F (EvSeed 42 :: EvMakedirs :: EvPickleDump hp :: ?t))
    with (logged F t).
  destruct (epochs_loop_logged F hp
              (shuffled F hp (fst (split_frames merge_train_val df)))
              (batches F hp (snd (split_frames merge_train_val df)))
              log_wandb patience (range_len (epochs hp)) 0%nat init_state
              (init_world F hp disk0)) as [Hs Hf].
  cbv zeta in Hs, Hf. split; [exact Hs | ].
  eapply Forall_impl; [ | exact Hf]. intros x [_ H]. exact H.
Qed.

(* ===================================================================== *)
(** ** Early stop *)
(* ===================================================================== *)

Section EarlyStop.

Variable F : Framework.
Variable hp : Hyper.
Variable train_loader : nat -> list (Batch F).
Variable val_loader : list (Batch F).
Variable log_wandb : bool.
Variable patience : Z.

Local Abbreviation epoch_body' :=
  (epoch_body F hp train_loader val_loader log_wandb patience).
Local Abbreviation epochs_loop' :=
  (epochs_loop F hp train_loader val_loader log_wandb patience).

Lemma saves_by_epoch_pass (t1 t2 : list (Event F)) :
  forallb (is_pass_event F) t1 = true ->
  saves_by_epoch F (t1 ++ t2) = saves_by_epoch F t2.
Proof.
  induction t1 as [ | ev t1 IH]; cbn [app forallb]; intros H.
  - reflexivity.
  - apply andb_prop in H. destruct H as [H1 H2].
    destruct ev; try discriminate; cbn [saves_by_epoch]; exact (IH H2).
Qed.

(** What comes after a call to [model.train()] does not change which of
    the epochs before it saved. *)
Lemma saves_by_epoch_app (t t' : list (Event F)) :
  saves_by_epoch F (t ++ EvModelTrain :: t')
  = saves_by_epoch F t ++ saves_by_epoch F (EvModelTrain :: t').
Proof.
  induction t as [ | ev t IH].
  - reflexivity.
  - destruct ev; cbn [app saves_by_epoch]; try exact IH.
    destruct t as [ | x t]; [reflexivity | ].
    cbn [app] in *. destruct x; rewrite IH; reflexivity.
Qed.

(** An iteration that returns adds one entry: whether it improved. *)
Lemma epoch_body_saves (epoch : nat) (st st1 : LoopState) (fl : Flow)
    (w : World F) (t : list (Event F)) :
  res (epoch_body' epoch st w) = Ok (st1, fl) ->
  exists vl,
    saves_by_epoch F (t ++ trace (epoch_body' epoch st w))
    = saves_by_epoch F t ++ [ltb vl (best_val_loss st)]
    /\ patience_counter st1
       = (if ltb vl (best_val_loss st) then 0 else patience_counter st + 1).
Proof.
  intros E.
  destruct (epoch_body_inv F hp train_loader val_loader log_wandb patience
              epoch st st1 fl w E)
    as (tl & vl & _ & _ & Hst & _ & _ & Htr).
  cbv zeta in Hst, Htr. exists vl. split.
  - rewrite Htr.
    set (tv := trace (validate F val_loader
                        (world (train F hp (train_loader epoch) w)))).
    set (rest := EvReadLR _ :: _).
    assert (Hrest : saves_by_epoch F rest = [ltb vl (best_val_loss st)]).
    { unfold rest.
      destruct (ltb vl (best_val_loss st)),
        (patience <=? patience_counter st1), log_wandb; reflexivity. }
    assert (Hpass : saves_by_epoch F
                      ((trace (train F hp (train_loader epoch) w) ++ tv)
                       ++ rest) = saves_by_epoch F rest).
    { apply saves_by_epoch_pass. rewrite forallb_app.
      apply andb_true_intro. split.
      - apply train_trace_class.
      - apply validate_pass_class. }
    assert (Hhead : exists tt,
               trace (train F hp (train_loader epoch) w)
               = EvModelTrain :: tt).
    { rewrite train_spec. eexists. reflexivity. }
    destruct Hhead as [tt Ett]. rewrite Ett in *.
    change (((EvModelTrain :: tt) ++ tv) ++ rest)
      with (EvModelTrain :: ((tt ++ tv) ++ rest)) in *.
    rewrite saves_by_epoch_app, Hpass, Hrest. reflexivity.
  - rewrite Hst. destruct (ltb vl (best_val_loss st)); reflexivity.
Qed.

(** The counter is the number of epochs run since the last save. *)
Lemma epochs_loop_misses (n : nat) (w : World F) (st : LoopState) (fl : Flow) :
  let o := epochs_loop' n 0%nat init_state w in
  res o = Ok (st, fl) ->
  0 <= patience_counter st
  /\ exists pre,
       saves_by_epoch F (trace o)
       = pre ++ repeat false (Z.to_nat (patience_counter st))
       /\ (pre = [] \/ exists pre', pre = pre' ++ [true]).
Proof.
  cbv zeta. intros H.
  apply (epochs_loop_rule F hp train_loader val_loader log_wandb patience
           (fun st _ _ t =>
              0 <= patience_counter st
              /\ exists pre,
                   saves_by_epoch F t
                   = pre ++ repeat false (Z.to_nat (patience_counter st))
                   /\ (pre = [] \/ exists pre', pre = pre' ++ [true])))
    with (t := []) in H; [exact H | | ].
  - clear. intros epoch st w t st1 fl (Hc & pre & Hs & Hpre) E.
    destruct (epoch_body_saves epoch st st1 fl w t E) as (vl & Hsv & Hcnt).
    rewrite Hsv, Hcnt, Hs.
    destruct (ltb vl (best_val_loss st)).
    + split; [lia | ].
      exists ((pre ++ repeat false (Z.to_nat (patience_counter st)))
              ++ [true]).
      split; [cbn; rewrite app_nil_r; reflexivity | ].
      right. eexists. reflexivity.
    + split; [lia | ]. exists pre. split; [ | exact Hpre].
      rewrite <- app_assoc. f_equal.
      replace (Z.to_nat (patience_counter st + 1))
        with (S (Z.to_nat (patience_counter st))) by lia.
      cbn [repeat]. symmetry. apply repeat_cons.
  - split; [cbn; lia | ]. exists []. split; [reflexivity | left; reflexivity].
Qed.

End EarlyStop.

(** X6. With a patience of at least 1, a loop left by the early stop has
    just run exactly [patience] epochs in a row without saving a
    checkpoint, right after an epoch that saved one or from the very first
    epoch; a loop that runs all its iterations ends with fewer than
    [patience] such epochs. *)
Theorem early_stop_after_patience_misses (F : Framework) (hp : Hyper)
    (df : DataFrame (Payload F)) (merge_train_val log_wandb : bool)
    (patience : Z) (w : World F) (st : LoopState) (fl : Flow) :
  1 <= patience ->
  let o := run_epochs F hp df merge_train_val log_wandb patience w in
  res o = Ok (st, fl) ->
  exists pre misses,
    saves_by_epoch F (trace o) = pre ++ repeat false misses
    /\ (pre = [] \/ exists pre', pre = pre' ++ [true])
    /\ match fl with
       | Break => misses = Z.to_nat patience
       | Continue => Z.of_nat misses < patience
       end.
Proof.
  intros Hp. cbv zeta. intros H.
  pose proof (run_epochs_ok_inv F hp df merge_train_val log_wandb patience
                w (st, fl) H) as Hsome.
  revert H.
  rewrite (run_epochs_nonempty F hp df merge_train_val log_wandb patience
             w Hsome).
  cbv zeta. cbn [res world trace]. intros H.
  change (saves_by_epoch F (EvSeed 42 :: EvMakedirs :: EvPickleDump hp :: ?t))
    with (saves_by_epoch F t).
  destruct (epochs_loop_misses F hp _ _ log_wandb patience _ _ _ _ H)
    as (Hc & pre & Hs & Hpre).
  pose proof (epochs_loop_counter F hp
                (shuffled F hp (fst (split_frames merge_train_val df)))
                (batches F hp (snd (split_frames merge_train_val df)))
                log_wandb patience
                (range_len (epochs hp)) Hp 0%nat init_state w st fl) as Hk.
  cbn [init_state patience_counter] in Hk. specialize (Hk ltac:(lia) H).
  exists pre, (Z.to_nat (patience_counter st)).
  split; [exact Hs | ]. split; [exact Hpre | ].
  destruct fl; [lia | rewrite Hk; reflexivity].
Qed.

(** X7. With a patience of 0 or less, a run whose budget is at least one
    epoch and whose loaders have batches runs exactly one epoch and stops
    early after it, whether or not that epoch improved; it logs nothing. *)
Theorem nonpositive_patience_runs_one_epoch (F : Framework) (hp : Hyper)
    (df : DataFrame (Payload F)) (merge_train_val log_wandb : bool)
    (patience : Z) (disk0 : option (Params F)) :
  patience <= 0 ->
  0 < epochs hp ->
  shuffled F hp (fst (split_frames merge_train_val df)) 0%nat <> [] ->
  batches F hp (snd (split_frames merge_train_val df)) <> [] ->
  let o := train_loop F hp df merge_train_val log_wandb patience disk0 in
  (exists r, res o = Ok r)
  /\ count F (is_print_epoch F) (trace o) = 1%nat
  /\ count F (is_print_stop F) (trace o) = 1%nat
  /\ count F (is_log F) (trace o) = 0%nat.
Proof.
  intros Hp Hpos Ht Hv. cbv zeta.
  rewrite (train_loop_nonempty F hp df merge_train_val log_wandb patience
             disk0 Ht).
  cbv zeta. cbn [res world trace].
  destruct (range_len (epochs hp)) as [ | n] eqn:En;
    [unfold range_len in En; lia | ].
  rewrite epochs_loop_S. cbv zeta.
  set (tl_ := shuffled F hp (fst (split_frames merge_train_val df))) in *.
  set (vl_ := batches F hp (snd (split_frames merge_train_val df))) in *.
  set (w0 := init_world F hp disk0).
  destruct (train_returns F hp (tl_ 0%nat) w0 Ht) as [tl Htl].
  destruct (validate_returns F vl_ (world (train F hp (tl_ 0%nat) w0)) Hv)
    as [vl Hvl].
  pose proof (epoch_body_returns F hp tl_ vl_ log_wandb patience 0%nat
                init_state w0 tl vl Htl Hvl) as E.
  cbv zeta in E.
  assert (Hstop : patience <=?
                  patience_counter
                    (if ltb vl (best_val_loss init_state) then mkLoop vl 0
                     else mkLoop (best_val_loss init_state)
                                 (patience_counter init_state + 1)) = true).
  { apply Z.leb_le. destruct (ltb vl (best_val_loss init_state)); cbn; lia. }
  rewrite Hstop in E.
  destruct (epoch_body_counts F hp tl_ vl_ log_wandb patience 0%nat
              init_state _ _ w0 E) as (Cp & Cl & _).
  destruct (epoch_body_inv F hp tl_ vl_ log_wandb patience 0%nat
              init_state _ _ w0 E) as (tl' & vl' & _ & _ & _ & _ & _ & Htr).
  cbv zeta in Cp, Cl, Htr.
  assert (Cs : count F (is_print_stop F)
                 (trace (epoch_body F hp tl_ vl_ log_wandb patience 0%nat
                           init_state w0)) = 1%nat).
  { rewrite Htr, count_app.
    rewrite (proj1 (passes_silent F hp (is_print_stop F) _ _ _ _
                      ltac:(intros ev; destruct ev; cbn; congruence))).
    cbn [patience_counter] in *. rewrite Hstop.
    destruct (ltb vl' (best_val_loss init_state)); reflexivity. }
  rewrite E. cbn [res world trace fst].
  assert (setup : forall p t,
             p (@EvSeed F 42) = false -> p (@EvMakedirs F) = false ->
             p (@EvPickleDump F hp) = false ->
             count F p (EvSeed 42 :: EvMakedirs :: EvPickleDump hp :: t)
             = count F p t).
  { intros p t E1 E2 E3. unfold count. cbn [filter]. rewrite E1, E2, E3.
    reflexivity. }
  rewrite !setup by reflexivity.
  split; [eexists; reflexivity | ].
  split; [exact Cp | ]. split; [exact Cs | exact Cl].
Qed.

(** X8. The training frame of a merged run is the union of the training
    and validation frames of a plain run: a row is in it exactly when it is
    in one of the two, and its length is the sum of their lengths less the
    number of rows flagged for both.  When no row is flagged for both, the
    lengths add up; and a row of a merged run serves both for training and
    for validation only if it is flagged [test] and one of [train], [val]. *)
Theorem merged_frame_is_union (Payload : Type) (df : DataFrame Payload) :
  let merged := split_frames true df in
  let plain := split_frames false df in
  let both := filter (fun r => train_col r && val_col r) (rows df) in
  (forall r, In r (rows (fst merged)) <->
             In r (rows (fst plain)) \/ In r (rows (snd plain)))
  /\ (length (rows (fst merged)) + length both
      = length (rows (fst plain)) + length (rows (snd plain)))%nat
  /\ (both = [] ->
      length (rows (fst merged))
      = (length (rows (fst plain)) + length (rows (snd plain)))%nat)
  /\ (forall r, In r (rows (fst merged)) -> In r (rows (snd merged)) ->
                test_col r = true
                /\ (train_col r = true \/ val_col r = true)).
Proof.
  cbv zeta. unfold split_frames. cbn [fst snd].
  rewrite !rows_reset_select.
  assert (L : (length (filter (fun r : Row Payload =>
                                 train_col r || val_col r) (rows df))
               + length (filter (fun r : Row Payload =>
                                   train_col r && val_col r) (rows df))
               = length (filter train_col (rows df))
                 + length (filter val_col (rows df)))%nat).
  { induction (rows df) as [ | r l IH]; [reflexivity | ].
    cbn [filter]. destruct (train_col r), (val_col r); cbn; lia. }
  split; [ | split; [exact L | split]].
  - intros r. rewrite !filter_In, orb_true_iff. tauto.
  - intros E. rewrite E in L. cbn in L. lia.
  - intros r H1 H2. apply filter_In in H1. apply filter_In in H2.
    destruct H1 as [_ H1]. destruct H2 as [_ H2].
    apply orb_true_iff in H1. split; assumption.
Qed.

(** A run on a frame with one training row and no validation row: the
    validation loader is empty, and the run aborts after its one training
    batch. *)
Lemma abort_after_training_pass_witness :
  0 < epochs (Sim.hyper 1)
  /\ shuffled (Sim.framework []) (Sim.hyper 1)
       (fst (split_frames false Cases.frame_without_val)) 0%nat <> []
  /\ batches (Sim.framework []) (Sim.hyper 1)
       (snd (split_frames false Cases.frame_without_val)) = []
  /\ res (train_loop (Sim.framework []) (Sim.hyper 1)
            Cases.frame_without_val false true 10 None)
     = Raise ZeroDivisionError
  /\ count _ (is_opt_step _)
       (trace (train_loop (Sim.framework []) (Sim.hyper 1)
                 Cases.frame_without_val false true 10 None))
     = length (shuffled (Sim.framework []) (Sim.hyper 1)
                 (fst (split_frames false Cases.frame_without_val)) 0%nat).
Proof.
  assert (H1 : 0 < epochs (Sim.hyper 1)) by (cbn; lia).
  assert (H2 : shuffled (Sim.framework []) (Sim.hyper 1)
                 (fst (split_frames false Cases.frame_without_val)) 0%nat
               <> []) by discriminate.
  assert (H3 : batches (Sim.framework []) (Sim.hyper 1)
                 (snd (split_frames false Cases.frame_without_val)) = [])
    by reflexivity.
  destruct (abort_after_training_pass (Sim.framework []) (Sim.hyper 1)
              Cases.frame_without_val false true 10 None H1 H2 H3)
    as (Hr & _ & _ & _ & _ & _ & Ho & _).
  split; [exact H1 | ]. split; [exact H2 | ]. split; [exact H3 | ].
  split; [exact Hr | exact Ho].
Defined.

(** The scenario of C2 returns 0.5 after three epochs. *)
Lemma reported_learning_rates_witness :
  res (train_loop (Sim.framework Sim.scenario_vals) (Sim.hyper 5) Sim.frame
         false true 2 None) = Ok (ratio 5 10)
  /\ count _ (is_sched_step _)
       (trace (train_loop (Sim.framework Sim.scenario_vals) (Sim.hyper 5)
                 Sim.frame false true 2 None))
     = count _ (is_print_epoch _)
         (trace (train_loop (Sim.framework Sim.scenario_vals) (Sim.hyper 5)
                   Sim.frame false true 2 None)).
Proof.
  assert (Hr : res (train_loop (Sim.framework Sim.scenario_vals)
                      (Sim.hyper 5) Sim.frame false true 2 None)
               = Ok (ratio 5 10)) by (vm_compute; reflexivity).
  split; [exact Hr | ].
  exact (proj1 (proj2 (reported_learning_rates
                         (Sim.framework Sim.scenario_vals) (Sim.hyper 5)
                         Sim.frame false true 2 None (ratio 5 10) Hr))).
Defined.

(** The scenario of C2, with patience 2, is left by the early stop. *)
Lemma early_stop_after_patience_misses_witness :
  1 <= 2
  /\ res (run_epochs (Sim.framework Sim.scenario_vals) (Sim.hyper 5)
            Sim.frame false true 2
            (init_world (Sim.framework Sim.scenario_vals) (Sim.hyper 5) None))
     = Ok (mkLoop (ratio 5 10) 2, Break)
  /\ exists pre misses,
       saves_by_epoch _
         (trace (run_epochs (Sim.framework Sim.scenario_vals) (Sim.hyper 5)
                   Sim.frame false true 2
                   (init_world (Sim.framework Sim.scenario_vals)
                               (Sim.hyper 5) None)))
       = pre ++ repeat false misses
       /\ (pre = [] \/ exists pre', pre = pre' ++ [true])
       /\ misses = Z.to_nat 2.
Proof.
  assert (H1 : 1 <= 2) by lia.
  assert (Hr : res (run_epochs (Sim.framework Sim.scenario_vals)
                      (Sim.hyper 5) Sim.frame false true 2
                      (init_world (Sim.framework Sim.scenario_vals)
                                  (Sim.hyper 5) None))
               = Ok (mkLoop (ratio 5 10) 2, Break))
    by (vm_compute; reflexivity).
  split; [exact H1 | ]. split; [exact Hr | ].
  exact (early_stop_after_patience_misses (Sim.framework Sim.scenario_vals)
           (Sim.hyper 5) Sim.frame false true 2
           (init_world (Sim.framework Sim.scenario_vals) (Sim.hyper 5) None)
           (mkLoop (ratio 5 10) 2) Break H1 Hr).
Defined.

(** The scenario of C2 with patience 0. *)
Lemma nonpositive_patience_runs_one_epoch_witness :
  0 <= 0
  /\ 0 < epochs (Sim.hyper 5)
  /\ shuffled (Sim.framework Sim.scenario_vals) (Sim.hyper 5)
       (fst (split_frames false Sim.frame)) 0%nat <> []
  /\ batches (Sim.framework Sim.scenario_vals) (Sim.hyper 5)
       (snd (split_frames false Sim.frame)) <> []
  /\ count _ (is_print_epoch _)
       (trace (train_loop (Sim.framework Sim.scenario_vals) (Sim.hyper 5)
                 Sim.frame false true 0 None)) = 1%nat.
Proof.
  assert (H1 : 0 <= 0) by lia.
  assert (H2 : 0 < epochs (Sim.hyper 5)) by (cbn; lia).
  assert (H3 : shuffled (Sim.framework Sim.scenario_vals) (Sim.hyper 5)
                 (fst (split_frames false Sim.frame)) 0%nat <> [])
    by discriminate.
  assert (H4 : batches (Sim.framework Sim.scenario_vals) (Sim.hyper 5)
                 (snd (split_frames false Sim.frame)) <> [])
    by discriminate.
  destruct (nonpositive_patience_runs_one_epoch
              (Sim.framework Sim.scenario_vals) (Sim.hyper 5) Sim.frame
              false true 0 None H1 H2 H3 H4) as (_ & Hc & _).
  repeat (split; [assumption | ]). exact Hc.
Defined.

(** A frame whose rows carry one flag each: the lengths add up. *)
Lemma merged_frame_is_union_witness :
  filter (fun r : Row float => train_col r && val_col r)
         (rows Cases.exclusive_frame) = []
  /\ length (rows (fst (split_frames true Cases.exclusive_frame)))
     = (length (rows (fst (split_frames false Cases.exclusive_frame)))
        + length (rows (snd (split_frames false Cases.exclusive_frame))))%nat.
Proof.
  assert (H : filter (fun r : Row float => train_col r && val_col r)
                     (rows Cases.exclusive_frame) = []) by reflexivity.
  split; [exact H | ].
  exact (proj1 (proj2 (proj2 (merged_frame_is_union float
                                Cases.exclusive_frame))) H).
Defined.

(* ===================================================================== *)
(** ** The model a run leaves *)
(* ===================================================================== *)

Section FinalModel.

Variable F : Framework.
Variable hp : Hyper.
Variable train_loader : nat -> list (Batch F).
Variable val_loader : list (Batch F).
Variable log_wandb : bool.
Variable patience : Z.

Local Abbreviation epoch_body' :=
  (epoch_body F hp train_loader val_loader log_wandb patience).
Local Abbreviation epochs_loop' :=
  (epochs_loop F hp train_loader val_loader log_wandb patience).

(** An iteration that returns leaves the parameters and the optimizer
    state of its training pass. *)
Lemma epoch_body_model (epoch : nat) (st st1 : LoopState) (fl : Flow)
    (w : World F) :
  res (epoch_body' epoch st w) = Ok (st1, fl) ->
  (parameters (world (epoch_body' epoch st w)),
   opt_state (world (epoch_body' epoch st w)))
  = fold_left (clipped_step F (lr w) (clip_grad hp)) (train_loader epoch)
              (parameters w, opt_state w).
Proof.
  intros E.
  destruct (epoch_body_inv F hp train_loader val_loader log_wandb patience
              epoch st st1 fl w E)
    as (tl & vl & _ & _ & _ & _ & Hw & _).
  cbv zeta in Hw. rewrite Hw, validate_spec.
  rewrite <- (train_world_closed F hp (train_loader epoch) w).
  destruct (ltb vl (best_val_loss st)); reflexivity.
Qed.

Lemma epochs_loop_model (n : nat) :
  forall epoch st w st' fl,
    res (epochs_loop' n epoch st w) = Ok (st', fl) ->
    let o := epochs_loop' n epoch st w in
    (parameters (world o), opt_state (world o))
    = passes_fold F train_loader (clip_grad hp)
        (count F (is_print_epoch F) (trace o)) epoch
        (parameters w, opt_state w) (sched w, lr w).
Proof.
  induction n as [ | n IH]; intros epoch st w st' fl H; cbv zeta.
  - reflexivity.
  - rewrite epochs_loop_S in *. cbv zeta in *.
    destruct (res (epoch_body' epoch st w)) as [[st1 fl1] | e] eqn:E;
      [ | destruct e; discriminate].
    pose proof (epoch_body_model epoch st st1 fl1 w E) as Hm.
    destruct (epoch_body_schedule F hp train_loader val_loader log_wandb
                patience epoch st st1 fl1 w E) as (_ & _ & Hs).
    destruct (epoch_body_counts F hp train_loader val_loader log_wandb
                patience epoch st st1 fl1 w E) as (Hc & _).
    cbv zeta in Hs, Hc.
    destruct fl1; cbn [res world trace] in *.
    + specialize (IH _ _ _ _ _ H). cbv zeta in IH.
      rewrite IH, count_app, Hc, Hm, Hs. reflexivity.
    + rewrite Hc, Hm. reflexivity.
Qed.

End FinalModel.

(** X9. The model and optimizer state a run that returns leaves behind are
    those of its training passes folded one after the other: the pass of
    the [i]-th epoch, counting from 0, makes all its updates at the
    learning rate after [i] steps of the scheduler, the first pass at the
    configured rate.  Validation, checkpointing and logging change neither. *)
Theorem final_model_is_fold_of_passes (F : Framework) (hp : Hyper)
    (df : DataFrame (Payload F)) (merge_train_val log_wandb : bool)
    (patience : Z) (disk0 : option (Params F)) (r : float) :
  let o := train_loop F hp df merge_train_val log_wandb patience disk0 in
  res o = Ok r ->
  (parameters (world o), opt_state (world o))
  = passes_fold F (shuffled F hp (fst (split_frames merge_train_val df)))
      (clip_grad hp) (count F (is_print_epoch F) (trace o)) 0%nat
      (build_model F hp, optimizer_init F hp (build_model F hp))
      (scheduler_init F hp, hp_lr hp).
Proof.
  cbv zeta. intros Hok.
  pose proof (train_loop_ok_inv F hp df merge_train_val log_wandb patience
                disk0 r Hok) as Hsome.
  revert Hok.
  rewrite (train_loop_nonempty F hp df merge_train_val log_wandb patience
             disk0 Hsome).
  cbv zeta. cbn [res world trace].
  set (o := epochs_loop F hp _ _ log_wandb patience _ 0%nat init_state _).
  destruct (res o) as [[st fl] | e] eqn:E; [ | discriminate].
  intros _.
  change (count F (is_print_epoch F)
            (EvSeed 42 :: EvMakedirs :: EvPickleDump hp :: trace o))
    with (count F (is_print_epoch F) (trace o)).
  exact (epochs_loop_model F hp _ _ log_wandb patience _ _ _ _ _ _ E).
Qed.

(** The scenario of C2: three passes of one batch each. *)
Lemma final_model_is_fold_of_passes_witness :
  res (train_loop (Sim.framework Sim.scenario_vals) (Sim.hyper 5) Sim.frame
         false true 2 None) = Ok (ratio 5 10)
  /\ (parameters (world (train_loop (Sim.framework Sim.scenario_vals)
                           (Sim.hyper 5) Sim.frame false true 2 None)),
      opt_state (world (train_loop (Sim.framework Sim.scenario_vals)
                          (Sim.hyper 5) Sim.frame false true 2 None)))
     = passes_fold (Sim.framework Sim.scenario_vals)
         (shuffled (Sim.framework Sim.scenario_vals) (Sim.hyper 5)
            (fst (split_frames false Sim.frame)))
         (clip_grad (Sim.hyper 5))
         (count _ (is_print_epoch _)
            (trace (train_loop (Sim.framework Sim.scenario_vals)
                      (Sim.hyper 5) Sim.frame false true 2 None)))
         0%nat
         (build_model (Sim.framework Sim.scenario_vals) (Sim.hyper 5),
          optimizer_init (Sim.framework Sim.scenario_vals) (Sim.hyper 5)
            (build_model (Sim.framework Sim.scenario_vals) (Sim.hyper 5)))
         (scheduler_init (Sim.framework Sim.scenario_vals) (Sim.hyper 5),
          hp_lr (Sim.hyper 5)).
Proof.
  assert (Hr : res (train_loop (Sim.framework Sim.scenario_vals)
                      (Sim.hyper 5) Sim.frame false true 2 None)
               = Ok (ratio 5 10)) by (vm_compute; reflexivity).
  split; [exact Hr | ].
  exact (final_model_is_fold_of_passes (Sim.framework Sim.scenario_vals)
           (Sim.hyper 5) Sim.frame false true 2 None (ratio 5 10) Hr).
Defined.
